(** * Gateway board telemetry core: clock extension and time synchronisation

    A shallow embedding of [Core/Src/telemetry.c] (with the declarations of
    [Core/Inc/telemetry.h]) and the properties of its clock extender, its
    NTP-style estimator, its offset-application policy, its time-sync
    endpoint and its logging facade.

    Conventions of the embedding:
    - [uint32_t], [uint64_t], [int64_t], [uint8_t], [int32_t] and [size_t]
      values are integers of [Z]; every operation that can leave the range
      of its C type is followed by the reduction of that type
      ([wrap32], [wrap64], [to_s64]).  Signed 64-bit results are reduced as
      two's complement, which is what the conversion [(int64_t)] of an
      out-of-range [uint64_t] yields on the target.
    - The file-scope and function-scope [static] variables form one record,
      [State], threaded through a state monad.
    - Calls that leave the translation unit (ThreadX, the CAN driver, the
      sedsprintf router, [printf]) are recorded in [trace]; what they return
      is read from an environment [Env], indexed by the number of calls
      made so far.
    - The preprocessor switches [TELEMETRY_ENABLED], [TELEMETRY_TIME_MASTER]
      and the overridable constants are fields of [Config]. *)

From Stdlib Require Import ZArith List Lia Bool RelationClasses.
Import ListNotations.
Open Scope Z_scope.

(** ** Fixed-width integers *)

Definition wrap32 (z : Z) : Z := z mod 2 ^ 32.
Definition wrap64 (z : Z) : Z := z mod 2 ^ 64.

(** [(int64_t) z]: the representative of [z] modulo [2^64] in
    [[-2^63, 2^63)]. *)
Definition to_s64 (z : Z) : Z := (z + 2 ^ 63) mod 2 ^ 64 - 2 ^ 63.

(** [(uint64_t) z]. *)
Definition to_u64 (z : Z) : Z := wrap64 z.

Definition is_u64 (z : Z) : Prop := 0 <= z < 2 ^ 64.
Definition is_s64 (z : Z) : Prop := - 2 ^ 63 <= z < 2 ^ 63.

(** ** The 32-to-64 bit clock extender, [tx_raw_now_ms] *)

Module Clock.

(** The two function-scope statics of [tx_raw_now_ms]. *)
Record statics : Type := mk {
  last_ticks32 : Z;   (* static uint32_t last_ticks32 = 0; *)
  high : Z            (* static uint64_t high = 0;         *)
}.

Definition init : statics := {| last_ticks32 := 0; high := 0 |}.

(** One call of [tx_raw_now_ms] when [tx_time_get()] returns [reading] and
    [TX_TIMER_TICKS_PER_SECOND] is [tps]: the value returned and the statics
    after the call. *)
Definition tx_raw_now_ms (tps : Z) (reading : Z) (c : statics) : Z * statics :=
  let cur32 := wrap32 reading in
  let high' :=
    if cur32 <? last_ticks32 c
    then wrap64 (high c + Z.shiftl 1 32)
    else high c in
  let ticks64 := Z.lor high' cur32 in
  (wrap64 (ticks64 * 1000) / to_u64 tps,
   {| last_ticks32 := cur32; high := high' |}).

(** Successive calls, one per reading: the values returned, in order. *)
Fixpoint outputs (tps : Z) (readings : list Z) (c : statics) : list Z :=
  match readings with
  | [] => []
  | r :: rest =>
      let '(ms, c') := tx_raw_now_ms tps r c in
      ms :: outputs tps rest c'
  end.

(** The statics after successive calls. *)
Fixpoint after (tps : Z) (readings : list Z) (c : statics) : statics :=
  match readings with
  | [] => c
  | r :: rest => after tps rest (snd (tx_raw_now_ms tps r c))
  end.

(** Number of readings that are smaller than the reading before them
    (the first one is compared with [prev]): the wraps the extender sees. *)
Fixpoint wraps_seen (prev : Z) (readings : list Z) : Z :=
  match readings with
  | [] => 0
  | r :: rest =>
      (if wrap32 r <? prev then 1 else 0) + wraps_seen (wrap32 r) rest
  end.

Fixpoint non_decreasing (l : list Z) : Prop :=
  match l with
  | [] => True
  | x :: rest =>
      match rest with
      | [] => True
      | y :: _ => x <= y /\ non_decreasing rest
      end
  end.

(** The largest number of wraps after which [ticks64 * 1000] still fits in
    64 bits whatever the low word is. *)
Definition max_wraps : Z := 4294966.

(** [k] times the readings 1, 0 (each pair is one wrap of the counter),
    then the readings of [tail]. *)
Definition sawtooth (k : N) (tail : list Z) : list Z :=
  N.iter k (fun l => 1 :: 0 :: l) tail.

(** What the statics hold after any number of calls: [high] is a whole
    number [w] of wraps and [last_ticks32] is a 32-bit value. *)
Definition wf (w : Z) (c : statics) : Prop :=
  high c = w * 2 ^ 32 /\ 0 <= w /\ 0 <= last_ticks32 c < 2 ^ 32.

(** The extended tick count the statics stand for. *)
Definition ticks_of (c : statics) : Z := high c + last_ticks32 c.

(** [b] may be put in front of [l]: it is at most the head of [l]. *)
Definition bounded_below (b : Z) (l : list Z) : Prop :=
  match l with
  | [] => True
  | y :: _ => b <= y
  end.

End Clock.

(** ** The NTP arithmetic, [compute_offset_delay] *)

(** The pair [( *offset_ms, *delay_ms )] written through the two out
    parameters.  The differences [t2 - t1], ... are taken in [uint64_t] and
    converted to [int64_t]; the sum, the difference and the division by two
    are [int64_t] operations ([/] of C truncates toward zero: [Z.quot]). *)
Definition compute_offset_delay (t1 t2 t3 t4 : Z) : Z * Z :=
  let o := Z.quot (to_s64 (to_s64 (wrap64 (t2 - t1)) + to_s64 (wrap64 (t3 - t4)))) 2 in
  let d := to_s64 (to_s64 (wrap64 (t4 - t1)) - to_s64 (wrap64 (t3 - t2))) in
  (o, if d <? 0 then 0 else to_u64 d).

(** The same two quantities as the specification words them: every
    timestamp is read as a signed 64-bit number and every operation is a
    signed 64-bit operation. *)
Module EstimatorSpec.

Definition sub64 (a b : Z) : Z := to_s64 (a - b).
Definition add64 (a b : Z) : Z := to_s64 (a + b).

Definition offset (t1 t2 t3 t4 : Z) : Z :=
  Z.quot (add64 (sub64 (to_s64 t2) (to_s64 t1)) (sub64 (to_s64 t3) (to_s64 t4))) 2.

Definition raw_delay (t1 t2 t3 t4 : Z) : Z :=
  sub64 (sub64 (to_s64 t4) (to_s64 t1)) (sub64 (to_s64 t3) (to_s64 t2)).

Definition delay (t1 t2 t3 t4 : Z) : Z :=
  if raw_delay t1 t2 t3 t4 <? 0 then 0 else raw_delay t1 t2 t3 t4.

End EstimatorSpec.

(** ** Interface types: sedsprintf, HAL *)

(** [SedsResult]: the four codes [telemetry.c] names, and any other code a
    router call may hand back. *)
Inductive SedsResult : Type :=
| SEDS_OK
| SEDS_ERR
| SEDS_BAD_ARG
| SEDS_IO
| SEDS_OTHER (code : Z).

(** [SedsDataType]: the enumerators [telemetry.c] and [telemetry_thread.c]
    name, and the remaining ones by number. *)
Inductive SedsDataType : Type :=
| SEDS_DT_TIME_SYNC_REQUEST
| SEDS_DT_TIME_SYNC_RESPONSE
| SEDS_DT_TIME_SYNC_ANNOUNCE
| SEDS_DT_GENERIC_ERROR
| SEDS_DT_MESSAGE_DATA
| SEDS_DT_OTHER (n : Z).

Definition SedsDataType_eqb (a b : SedsDataType) : bool :=
  match a, b with
  | SEDS_DT_TIME_SYNC_REQUEST, SEDS_DT_TIME_SYNC_REQUEST => true
  | SEDS_DT_TIME_SYNC_RESPONSE, SEDS_DT_TIME_SYNC_RESPONSE => true
  | SEDS_DT_TIME_SYNC_ANNOUNCE, SEDS_DT_TIME_SYNC_ANNOUNCE => true
  | SEDS_DT_GENERIC_ERROR, SEDS_DT_GENERIC_ERROR => true
  | SEDS_DT_MESSAGE_DATA, SEDS_DT_MESSAGE_DATA => true
  | SEDS_DT_OTHER n, SEDS_DT_OTHER m => n =? m
  | _, _ => false
  end.

Inductive SedsElemKind : Type := SEDS_EK_FLOAT | SEDS_EK_UNSIGNED.

Inductive HAL_StatusTypeDef : Type := HAL_OK | HAL_ERROR | HAL_BUSY | HAL_TIMEOUT.

(** A [SedsRouter *] that is not [NULL]. *)
Definition SedsRouter : Type := Z.

(** A [const uint8_t *] or [const void *] argument: [None] is [NULL],
    [Some bytes] points at [bytes]. *)
Definition buffer : Type := option (list Z).

(** The fields of [SedsPacketView] that [on_timesync] reads. *)
Record SedsPacketView : Type := {
  ty : SedsDataType;
  payload : buffer;
  payload_len : Z
}.

(** [typedef struct { SedsRouter *r; uint8_t created; uint64_t start_time; }
    RouterState;] *)
Record RouterState : Type := {
  r : option SedsRouter;
  created : Z;
  start_time : Z
}.

(** The outcome of the two [vsnprintf] calls of the error loggers on the
    caller's format and arguments: the length the first call reports, the
    count the second one reports and the characters it stored. *)
Record Formatted : Type := {
  fmt_len : Z;
  fmt_written : Z;
  fmt_buf : list Z
}.

(** ** Calls that leave the translation unit *)

Inductive Call : Type :=
| Call_tx_time_get
| Call_printf
| Call_can_bus_subscribe_rx
| Call_can_bus_send_large (bytes : list Z) (len id : Z)
| Call_seds_router_new
| Call_seds_router_add_side_serialized (rt : SedsRouter)
| Call_seds_router_log_ts
    (rt : option SedsRouter) (dt : SedsDataType) (ts : Z) (data : list Z)
| Call_seds_router_log_typed_ex
    (rt : option SedsRouter) (dt : SedsDataType) (data : list Z)
    (count size : Z) (kind : SedsElemKind) (queue : Z)
| Call_seds_router_log_string_ex
    (rt : option SedsRouter) (dt : SedsDataType) (str : list Z) (len queue : Z)
| Call_seds_router_process_tx_queue (rt : option SedsRouter)
| Call_seds_router_process_rx_queue (rt : option SedsRouter)
| Call_seds_router_process_tx_queue_with_timeout (rt : option SedsRouter) (ms : Z)
| Call_seds_router_process_rx_queue_with_timeout (rt : option SedsRouter) (ms : Z)
| Call_seds_router_process_all_queues_with_timeout (rt : option SedsRouter) (ms : Z)
| Call_seds_router_rx_serialized_packet_to_queue_from_side
    (rt : option SedsRouter) (side : Z) (bytes : list Z) (len : Z)
| Call_seds_router_rx_serialized_packet_to_queue
    (rt : option SedsRouter) (bytes : list Z) (len : Z)
| Call_seds_router_receive_serialized_from_side
    (rt : option SedsRouter) (side : Z) (bytes : list Z) (len : Z)
| Call_seds_router_receive_serialized
    (rt : option SedsRouter) (bytes : list Z) (len : Z)
| Call_seds_error_to_string_len (code : Z)
| Call_seds_error_to_string (code : Z).

(** What the collaborators answer.  The index is the number of calls made
    before the one that is answered. *)
Record Env : Type := {
  tx_time_get : nat -> Z;
  can_bus_subscribe_rx : nat -> HAL_StatusTypeDef;
  can_bus_send_large : nat -> HAL_StatusTypeDef;
  seds_router_new : nat -> option SedsRouter;
  seds_router_add_side_serialized : nat -> Z;
  seds_result : nat -> SedsResult;
  seds_error_to_string_len : nat -> Z;
  (* the numbering of [SedsResult], for the cast [(SedsResult)need] *)
  SedsResult_of_int : Z -> SedsResult
}.

(** The preprocessor configuration of a build. *)
Record Config : Type := {
  TELEMETRY_ENABLED : bool;
  TELEMETRY_TIME_MASTER : bool;
  TX_TIMER_TICKS_PER_SECOND : Z;
  NET_TIMESYNC_MAX_STEP_MS : Z;
  NET_TIMESYNC_SMOOTH_DIV : Z
}.

(** ** The static variables *)

Record State : Type := {
  tx_raw_now_ms_statics : Clock.statics;
  g_can_rx_subscribed : Z;   (* static uint8_t  g_can_rx_subscribed = 0;  *)
  g_can_side_id : Z;         (* static int32_t  g_can_side_id = -1;       *)
  g_master_offset_ms : Z;    (* static volatile int64_t  ... = 0;         *)
  g_last_delay_ms : Z;       (* static volatile uint64_t ... = 0;         *)
  g_unix_base_ms : Z;        (* static volatile int64_t  ... = 0;         *)
  g_unix_valid : Z;          (* static volatile uint8_t  ... = 0;         *)
  g_router : RouterState;    (* {.r = NULL, .created = 0, .start_time = 0} *)
  g_timesync_seq : Z;        (* static uint64_t g_timesync_seq = 1;       *)
  trace : list Call          (* calls made so far, the latest first       *)
}.

Definition initial_state : State := {|
  tx_raw_now_ms_statics := Clock.init;
  g_can_rx_subscribed := 0;
  g_can_side_id := -1;
  g_master_offset_ms := 0;
  g_last_delay_ms := 0;
  g_unix_base_ms := 0;
  g_unix_valid := 0;
  g_router := {| r := None; created := 0; start_time := 0 |};
  g_timesync_seq := 1;
  trace := []
|}.

Definition set_statics (c : Clock.statics) (s : State) : State :=
  {| tx_raw_now_ms_statics := c;
     g_can_rx_subscribed := g_can_rx_subscribed s;
     g_can_side_id := g_can_side_id s;
     g_master_offset_ms := g_master_offset_ms s;
     g_last_delay_ms := g_last_delay_ms s;
     g_unix_base_ms := g_unix_base_ms s;
     g_unix_valid := g_unix_valid s;
     g_router := g_router s;
     g_timesync_seq := g_timesync_seq s;
     trace := trace s |}.

Definition set_can_rx_subscribed (v : Z) (s : State) : State :=
  {| tx_raw_now_ms_statics := tx_raw_now_ms_statics s;
     g_can_rx_subscribed := v;
     g_can_side_id := g_can_side_id s;
     g_master_offset_ms := g_master_offset_ms s;
     g_last_delay_ms := g_last_delay_ms s;
     g_unix_base_ms := g_unix_base_ms s;
     g_unix_valid := g_unix_valid s;
     g_router := g_router s;
     g_timesync_seq := g_timesync_seq s;
     trace := trace s |}.

Definition set_can_side_id (v : Z) (s : State) : State :=
  {| tx_raw_now_ms_statics := tx_raw_now_ms_statics s;
     g_can_rx_subscribed := g_can_rx_subscribed s;
     g_can_side_id := v;
     g_master_offset_ms := g_master_offset_ms s;
     g_last_delay_ms := g_last_delay_ms s;
     g_unix_base_ms := g_unix_base_ms s;
     g_unix_valid := g_unix_valid s;
     g_router := g_router s;
     g_timesync_seq := g_timesync_seq s;
     trace := trace s |}.

Definition set_master_offset_ms (v : Z) (s : State) : State :=
  {| tx_raw_now_ms_statics := tx_raw_now_ms_statics s;
     g_can_rx_subscribed := g_can_rx_subscribed s;
     g_can_side_id := g_can_side_id s;
     g_master_offset_ms := v;
     g_last_delay_ms := g_last_delay_ms s;
     g_unix_base_ms := g_unix_base_ms s;
     g_unix_valid := g_unix_valid s;
     g_router := g_router s;
     g_timesync_seq := g_timesync_seq s;
     trace := trace s |}.

Definition set_last_delay_ms (v : Z) (s : State) : State :=
  {| tx_raw_now_ms_statics := tx_raw_now_ms_statics s;
     g_can_rx_subscribed := g_can_rx_subscribed s;
     g_can_side_id := g_can_side_id s;
     g_master_offset_ms := g_master_offset_ms s;
     g_last_delay_ms := v;
     g_unix_base_ms := g_unix_base_ms s;
     g_unix_valid := g_unix_valid s;
     g_router := g_router s;
     g_timesync_seq := g_timesync_seq s;
     trace := trace s |}.

Definition set_unix_base_ms (v : Z) (s : State) : State :=
  {| tx_raw_now_ms_statics := tx_raw_now_ms_statics s;
     g_can_rx_subscribed := g_can_rx_subscribed s;
     g_can_side_id := g_can_side_id s;
     g_master_offset_ms := g_master_offset_ms s;
     g_last_delay_ms := g_last_delay_ms s;
     g_unix_base_ms := v;
     g_unix_valid := g_unix_valid s;
     g_router := g_router s;
     g_timesync_seq := g_timesync_seq s;
     trace := trace s |}.

Definition set_unix_valid (v : Z) (s : State) : State :=
  {| tx_raw_now_ms_statics := tx_raw_now_ms_statics s;
     g_can_rx_subscribed := g_can_rx_subscribed s;
     g_can_side_id := g_can_side_id s;
     g_master_offset_ms := g_master_offset_ms s;
     g_last_delay_ms := g_last_delay_ms s;
     g_unix_base_ms := g_unix_base_ms s;
     g_unix_valid := v;
     g_router := g_router s;
     g_timesync_seq := g_timesync_seq s;
     trace := trace s |}.

Definition set_router (v : RouterState) (s : State) : State :=
  {| tx_raw_now_ms_statics := tx_raw_now_ms_statics s;
     g_can_rx_subscribed := g_can_rx_subscribed s;
     g_can_side_id := g_can_side_id s;
     g_master_offset_ms := g_master_offset_ms s;
     g_last_delay_ms := g_last_delay_ms s;
     g_unix_base_ms := g_unix_base_ms s;
     g_unix_valid := g_unix_valid s;
     g_router := v;
     g_timesync_seq := g_timesync_seq s;
     trace := trace s |}.

Definition set_timesync_seq (v : Z) (s : State) : State :=
  {| tx_raw_now_ms_statics := tx_raw_now_ms_statics s;
     g_can_rx_subscribed := g_can_rx_subscribed s;
     g_can_side_id := g_can_side_id s;
     g_master_offset_ms := g_master_offset_ms s;
     g_last_delay_ms := g_last_delay_ms s;
     g_unix_base_ms := g_unix_base_ms s;
     g_unix_valid := g_unix_valid s;
     g_router := g_router s;
     g_timesync_seq := v;
     trace := trace s |}.

Definition set_trace (v : list Call) (s : State) : State :=
  {| tx_raw_now_ms_statics := tx_raw_now_ms_statics s;
     g_can_rx_subscribed := g_can_rx_subscribed s;
     g_can_side_id := g_can_side_id s;
     g_master_offset_ms := g_master_offset_ms s;
     g_last_delay_ms := g_last_delay_ms s;
     g_unix_base_ms := g_unix_base_ms s;
     g_unix_valid := g_unix_valid s;
     g_router := g_router s;
     g_timesync_seq := g_timesync_seq s;
     trace := v |}.

(** ** The state monad of the translation unit *)

Definition M (A : Type) : Type := State -> A * State.

Definition ret {A : Type} (a : A) : M A := fun s => (a, s).

Definition bind {A B : Type} (m : M A) (k : A -> M B) : M B :=
  fun s => let (a, s') := m s in k a s'.

Definition gets {A : Type} (f : State -> A) : M A := fun s => (f s, s).

Definition modify (f : State -> State) : M unit := fun s => (tt, f s).

Declare Scope tm_scope.
Delimit Scope tm_scope with tm.
Notation "x <- m ;; k" := (bind m (fun x => k))
  (at level 61, m at next level, right associativity) : tm_scope.
Notation "m ;; k" := (bind m (fun _ => k))
  (at level 61, right associativity) : tm_scope.
Open Scope tm_scope.

(** The value a run returns and the state it leaves. *)
Definition result_of {A : Type} (m : M A) (s : State) : A := fst (m s).
Definition state_after {A : Type} (m : M A) (s : State) : State := snd (m s).

(** ** Little-endian fields of a payload *)

(** [memcpy(&x, payload + off, 8)] into a [uint64_t x] on the little-endian
    target: byte [off] is the least significant one.  A byte beyond the end
    of the list reads as 0. *)
Fixpoint load_le (bytes : list Z) (off n : nat) : Z :=
  match n with
  | O => 0
  | S n' => nth off bytes 0 mod 256 + 256 * load_le bytes (S off) n'
  end.

Definition load_u64 (bytes : list Z) (off : nat) : Z := load_le bytes off 8.

(** The eight bytes of a [uint64_t], least significant first. *)
Fixpoint store_le (z : Z) (n : nat) : list Z :=
  match n with
  | O => []
  | S n' => z mod 256 :: store_le (z / 256) n'
  end.

Definition store_u64 (z : Z) : list Z := store_le (wrap64 z) 8.

(** ** The functions of [telemetry.c] *)

Section Telemetry.

Variable cfg : Config.
Variable env : Env.

(** A call to a collaborator: it is appended to the trace and its answer is
    the environment's answer at this position of the trace. *)
Definition call {A : Type} (c : Call) (answer : Env -> nat -> A) : M A :=
  fun s => (answer env (length (trace s)), set_trace (c :: trace s) s).

(** A call whose result the code does not use. *)
Definition call_ (c : Call) : M unit :=
  fun s => (tt, set_trace (c :: trace s) s).

Definition tx_raw_now_ms : M Z :=
  reading <- call Call_tx_time_get tx_time_get ;;
  c <- gets tx_raw_now_ms_statics ;;
  let out := Clock.tx_raw_now_ms (TX_TIMER_TICKS_PER_SECOND cfg) reading c in
  modify (set_statics (snd out)) ;;
  ret (fst out).

Definition telemetry_master_offset_ms_get : M Z := gets g_master_offset_ms.
Definition telemetry_master_offset_ms_set (off : Z) : M unit :=
  modify (set_master_offset_ms off).
Definition telemetry_last_delay_ms_get : M Z := gets g_last_delay_ms.
Definition telemetry_last_delay_ms_set (d : Z) : M unit :=
  modify (set_last_delay_ms d).

Definition telemetry_now_ms : M Z :=
  raw <- tx_raw_now_ms ;;
  off <- telemetry_master_offset_ms_get ;;
  let t := to_s64 (to_s64 raw + off) in
  let t := if t <? 0 then 0 else t in
  ret (to_u64 t).

Definition telemetry_unix_ms : M Z :=
  valid <- gets g_unix_valid ;;
  if valid =? 0 then ret 0 else
  now <- telemetry_now_ms ;;
  base <- gets g_unix_base_ms ;;
  let t := to_s64 (to_s64 now + base) in
  let t := if t <? 0 then 0 else t in
  ret (to_u64 t).

Definition telemetry_unix_s : M Z :=
  ms <- telemetry_unix_ms ;;
  ret (ms / 1000).

Definition telemetry_unix_is_valid : M Z := gets g_unix_valid.

Definition telemetry_set_unix_time_ms (unix_ms : Z) : M unit :=
  if TELEMETRY_TIME_MASTER cfg then
    t <- telemetry_now_ms ;;
    let now := to_s64 t in
    modify (set_unix_base_ms (to_s64 (to_s64 unix_ms - now))) ;;
    modify (set_unix_valid 1)
  else ret tt.

(** The local [step] of [client_apply_offset_ms], once the candidate has
    passed the range test. *)
Definition smoothed_step (offset_ms : Z) : Z :=
  let step := Z.quot offset_ms (to_s64 (NET_TIMESYNC_SMOOTH_DIV cfg)) in
  if step =? 0 then
    if offset_ms >? 0 then 1
    else if offset_ms <? 0 then -1
    else step
  else step.

Definition client_apply_offset_ms (offset_ms : Z) : M unit :=
  if (offset_ms >? NET_TIMESYNC_MAX_STEP_MS cfg)
     || (offset_ms <? - NET_TIMESYNC_MAX_STEP_MS cfg)
  then ret tt
  else
    g <- gets g_master_offset_ms ;;
    modify (set_master_offset_ms (to_s64 (g + smoothed_step offset_ms))).

Definition tx_send (bytes : buffer) (len : Z) : M SedsResult :=
  match bytes with
  | None => ret SEDS_BAD_ARG
  | Some b =>
      if len =? 0 then ret SEDS_BAD_ARG else
      st <- call (Call_can_bus_send_large b len 3) can_bus_send_large ;;
      ret (match st with HAL_OK => SEDS_OK | _ => SEDS_IO end)
  end.

Definition on_sd_packet (pkt : option SedsPacketView) : M SedsResult :=
  ret SEDS_OK.

Definition on_timesync (pkt : option SedsPacketView) : M SedsResult :=
  match pkt with
  | None => ret SEDS_ERR
  | Some p =>
  match payload p with
  | None => ret SEDS_ERR
  | Some bytes =>
    (* Client: handle response *)
    if SedsDataType_eqb (ty p) SEDS_DT_TIME_SYNC_RESPONSE && (32 <=? payload_len p)
    then
      let seq := load_u64 bytes 0 in
      let t1 := load_u64 bytes 8 in
      let t2 := load_u64 bytes 16 in
      let t3 := load_u64 bytes 24 in
      t4 <- tx_raw_now_ms ;;
      let offset_ms := fst (compute_offset_delay t1 t2 t3 t4) in
      let delay_ms := snd (compute_offset_delay t1 t2 t3 t4) in
      (if negb (TELEMETRY_TIME_MASTER cfg)
       then client_apply_offset_ms offset_ms
       else ret tt) ;;
      telemetry_last_delay_ms_set delay_ms ;;
      ret SEDS_OK
    (* Master: handle request *)
    else if SedsDataType_eqb (ty p) SEDS_DT_TIME_SYNC_REQUEST && (16 <=? payload_len p)
    then
      if TELEMETRY_TIME_MASTER cfg then
        let seq := load_u64 bytes 0 in
        let t1 := load_u64 bytes 8 in
        t2 <- tx_raw_now_ms ;;
        t3 <- tx_raw_now_ms ;;
        g <- gets g_router ;;
        call (Call_seds_router_log_ts (r g) SEDS_DT_TIME_SYNC_RESPONSE t3
                [seq; t1; t2; t3])
             seds_result
      else ret SEDS_OK
    (* Client: learn unix time from announce *)
    else if SedsDataType_eqb (ty p) SEDS_DT_TIME_SYNC_ANNOUNCE && (16 <=? payload_len p)
    then
      (if negb (TELEMETRY_TIME_MASTER cfg) then
         let priority := load_u64 bytes 0 in
         let unix_ms := load_u64 bytes 8 in
         d <- telemetry_last_delay_ms_get ;;
         let half_delay := d / 2 in
         t <- telemetry_now_ms ;;
         let now := to_s64 t in
         modify (set_unix_base_ms
                   (to_s64 (to_s64 (wrap64 (unix_ms + half_delay)) - now))) ;;
         modify (set_unix_valid 1)
       else ret tt) ;;
      ret SEDS_OK
    else ret SEDS_OK
  end
  end.

Definition node_now_since_ms : M Z :=
  now <- telemetry_now_ms ;;
  s <- gets g_router ;;
  ret (match r s with
       | Some _ => wrap64 (now - start_time s)
       | None => 0
       end).

Definition init_telemetry_router : M SedsResult :=
  if negb (TELEMETRY_ENABLED cfg) then ret SEDS_OK else
  g <- gets g_router ;;
  if negb (created g =? 0) && (match r g with Some _ => true | None => false end)
  then ret SEDS_OK else
  subscribed <- gets g_can_rx_subscribed ;;
  (if subscribed =? 0 then
     st <- call Call_can_bus_subscribe_rx can_bus_subscribe_rx ;;
     match st with
     | HAL_OK => modify (set_can_rx_subscribed 1)
     | _ => call_ Call_printf
     end
   else ret tt) ;;
  rt <- call Call_seds_router_new seds_router_new ;;
  match rt with
  | None =>
      call_ Call_printf ;;
      g <- gets g_router ;;
      modify (set_router {| r := None; created := 0; start_time := start_time g |}) ;;
      modify (set_can_side_id (-1)) ;;
      ret SEDS_ERR
  | Some rt =>
      side <- call (Call_seds_router_add_side_serialized rt)
                   seds_router_add_side_serialized ;;
      modify (set_can_side_id side) ;;
      (if side <? 0 then
         call_ Call_printf ;;
         modify (set_can_side_id (-1))
       else ret tt) ;;
      g <- gets g_router ;;
      modify (set_router {| r := Some rt; created := 1; start_time := start_time g |}) ;;
      now <- telemetry_now_ms ;;
      modify (set_router {| r := Some rt; created := 1; start_time := now |}) ;;
      (if TELEMETRY_TIME_MASTER cfg
       then modify (set_master_offset_ms 0)
       else ret tt) ;;
      ret SEDS_OK
  end.

(** The prologue every entry point repeats:
    [if (!g_router.r) { if (init_telemetry_router() != SEDS_OK) return fail; }]
    followed by the rest of the function. *)
Definition with_router {A : Type} (fail : A) (rest : M A) : M A :=
  g <- gets g_router ;;
  match r g with
  | Some _ => rest
  | None =>
      res <- init_telemetry_router ;;
      match res with
      | SEDS_OK => rest
      | _ => ret fail
      end
  end.

Definition rx_asynchronous (bytes : buffer) (len : Z) : M unit :=
  if negb (TELEMETRY_ENABLED cfg) then ret tt else
  match bytes with
  | None => ret tt
  | Some b =>
      if len =? 0 then ret tt else
      with_router tt
        (g <- gets g_router ;;
         side <- gets g_can_side_id ;;
         if 0 <=? side then
           call_ (Call_seds_router_rx_serialized_packet_to_queue_from_side
                    (r g) (wrap32 side) b len)
         else
           call_ (Call_seds_router_rx_serialized_packet_to_queue (r g) b len))
  end.

Definition telemetry_can_rx (data : buffer) (len : Z) : M unit :=
  rx_asynchronous data len.

Definition rx_synchronous (bytes : buffer) (len : Z) : M unit :=
  if negb (TELEMETRY_ENABLED cfg) then ret tt else
  match bytes with
  | None => ret tt
  | Some b =>
      if len =? 0 then ret tt else
      with_router tt
        (g <- gets g_router ;;
         side <- gets g_can_side_id ;;
         if 0 <=? side then
           call_ (Call_seds_router_receive_serialized_from_side
                    (r g) (wrap32 side) b len)
         else
           call_ (Call_seds_router_receive_serialized (r g) b len))
  end.

Definition telemetry_timesync_request : M SedsResult :=
  if negb (TELEMETRY_ENABLED cfg) then ret SEDS_OK else
  if TELEMETRY_TIME_MASTER cfg then ret SEDS_OK else
  with_router SEDS_ERR
    (t1 <- tx_raw_now_ms ;;
     seq <- gets g_timesync_seq ;;
     modify (set_timesync_seq (wrap64 (seq + 1))) ;;
     g <- gets g_router ;;
     call (Call_seds_router_log_ts (r g) SEDS_DT_TIME_SYNC_REQUEST t1 [seq; t1])
          seds_result).

Definition telemetry_timesync_announce (priority unix_ms : Z) : M SedsResult :=
  if negb (TELEMETRY_ENABLED cfg) then ret SEDS_OK else
  if negb (TELEMETRY_TIME_MASTER cfg) then ret SEDS_OK else
  with_router SEDS_ERR
    (t <- tx_raw_now_ms ;;
     g <- gets g_router ;;
     call (Call_seds_router_log_ts (r g) SEDS_DT_TIME_SYNC_ANNOUNCE t
             [priority; unix_ms])
          seds_result).

Definition guess_kind_from_elem_size (elem_size : Z) : SedsElemKind :=
  if (elem_size =? 4) || (elem_size =? 8) then SEDS_EK_FLOAT else SEDS_EK_UNSIGNED.

Definition print_data_no_telem (data : buffer) (len : Z) : M unit := ret tt.

(** The common body of [log_telemetry_synchronous] ([queue = 0]) and
    [log_telemetry_asynchronous] ([queue = 1]), which differ in the last
    argument of [seds_router_log_typed_ex] only. *)
Definition log_telemetry (queue : Z) (data_type : SedsDataType) (data : buffer)
    (element_count element_size : Z) : M SedsResult :=
  if TELEMETRY_ENABLED cfg then
    with_router SEDS_ERR
      match data with
      | None => ret SEDS_BAD_ARG
      | Some d =>
          if (element_count =? 0) || (element_size =? 0) then ret SEDS_BAD_ARG
          else
            let kind := guess_kind_from_elem_size element_size in
            g <- gets g_router ;;
            call (Call_seds_router_log_typed_ex (r g) data_type d
                    element_count element_size kind queue)
                 seds_result
      end
  else
    print_data_no_telem data (wrap32 (element_count * element_size)) ;;
    ret SEDS_OK.

Definition log_telemetry_synchronous := log_telemetry 0.
Definition log_telemetry_asynchronous := log_telemetry 1.

(** The shape shared by the five queue entry points: the prologue, then one
    router call. *)
Definition queue_call (c : option SedsRouter -> Call) : M SedsResult :=
  if negb (TELEMETRY_ENABLED cfg) then ret SEDS_OK else
  with_router SEDS_ERR
    (g <- gets g_router ;;
     call (c (r g)) seds_result).

Definition dispatch_tx_queue : M SedsResult :=
  queue_call Call_seds_router_process_tx_queue.

Definition process_rx_queue : M SedsResult :=
  queue_call Call_seds_router_process_rx_queue.

Definition dispatch_tx_queue_timeout (timeout_ms : Z) : M SedsResult :=
  queue_call (fun rt => Call_seds_router_process_tx_queue_with_timeout rt timeout_ms).

Definition process_rx_queue_timeout (timeout_ms : Z) : M SedsResult :=
  queue_call (fun rt => Call_seds_router_process_rx_queue_with_timeout rt timeout_ms).

Definition process_all_queues_timeout (timeout_ms : Z) : M SedsResult :=
  queue_call (fun rt => Call_seds_router_process_all_queues_with_timeout rt timeout_ms).

(** The common body of [log_error_syncronous] ([queue = 0]) and
    [log_error_asyncronous] ([queue = 1]).  The cap of [len] at 512 sizes
    the buffer that [fmt_buf] stands for; the length handed to the router
    is the count the second [vsnprintf] reports. *)
Definition log_error (queue : Z) (f : Formatted) : M SedsResult :=
  if negb (TELEMETRY_ENABLED cfg) then ret SEDS_OK else
  with_router SEDS_ERR
    (g <- gets g_router ;;
     if fmt_len f <? 0 then
       call (Call_seds_router_log_string_ex (r g) SEDS_DT_GENERIC_ERROR [] 0 queue)
            seds_result
     else if fmt_written f <? 0 then
       call (Call_seds_router_log_string_ex (r g) SEDS_DT_GENERIC_ERROR [] 0 queue)
            seds_result
     else
       call (Call_seds_router_log_string_ex (r g) SEDS_DT_GENERIC_ERROR
               (fmt_buf f) (fmt_written f) queue)
            seds_result).

Definition log_error_asyncronous := log_error 1.
Definition log_error_syncronous := log_error 0.

(** [f] is the formatting of the message logged when
    [seds_error_to_string] fails. *)
Definition print_telemetry_error (error_code : Z) (f : Formatted) : M SedsResult :=
  if negb (TELEMETRY_ENABLED cfg) then ret SEDS_OK else
  need <- call (Call_seds_error_to_string_len error_code) seds_error_to_string_len ;;
  if need <=? 0 then ret (SedsResult_of_int env need) else
  res <- call (Call_seds_error_to_string error_code) seds_result ;;
  match res with
  | SEDS_OK => call_ Call_printf ;; ret res
  | _ => log_error_asyncronous f ;; ret res
  end.

(** ** The operations of the core, as one type *)

(** Every function of [telemetry.c] that returns ([die] loops forever and
    touches no static).  The endpoint handlers, [tx_send] and
    [node_now_since_ms], which the router calls back, are operations of their
    own. *)
Inductive Op : Type :=
| Op_tx_raw_now_ms
| Op_telemetry_now_ms
| Op_telemetry_unix_ms
| Op_telemetry_unix_s
| Op_telemetry_unix_is_valid
| Op_telemetry_set_unix_time_ms (unix_ms : Z)
| Op_client_apply_offset_ms (offset_ms : Z)
| Op_tx_send (bytes : buffer) (len : Z)
| Op_on_sd_packet (pkt : option SedsPacketView)
| Op_on_timesync (pkt : option SedsPacketView)
| Op_node_now_since_ms
| Op_telemetry_can_rx (bytes : buffer) (len : Z)
| Op_rx_asynchronous (bytes : buffer) (len : Z)
| Op_rx_synchronous (bytes : buffer) (len : Z)
| Op_telemetry_timesync_request
| Op_telemetry_timesync_announce (priority unix_ms : Z)
| Op_init_telemetry_router
| Op_log_telemetry_synchronous (dt : SedsDataType) (data : buffer) (count size : Z)
| Op_log_telemetry_asynchronous (dt : SedsDataType) (data : buffer) (count size : Z)
| Op_dispatch_tx_queue
| Op_process_rx_queue
| Op_dispatch_tx_queue_timeout (timeout_ms : Z)
| Op_process_rx_queue_timeout (timeout_ms : Z)
| Op_process_all_queues_timeout (timeout_ms : Z)
| Op_log_error_asyncronous (f : Formatted)
| Op_log_error_syncronous (f : Formatted)
| Op_print_telemetry_error (error_code : Z) (f : Formatted).

Definition ignore {A : Type} (m : M A) : M unit := m ;; ret tt.

Definition exec (o : Op) : M unit :=
  match o with
  | Op_tx_raw_now_ms => ignore tx_raw_now_ms
  | Op_telemetry_now_ms => ignore telemetry_now_ms
  | Op_telemetry_unix_ms => ignore telemetry_unix_ms
  | Op_telemetry_unix_s => ignore telemetry_unix_s
  | Op_telemetry_unix_is_valid => ignore telemetry_unix_is_valid
  | Op_telemetry_set_unix_time_ms u => telemetry_set_unix_time_ms u
  | Op_client_apply_offset_ms o => client_apply_offset_ms o
  | Op_tx_send b l => ignore (tx_send b l)
  | Op_on_sd_packet p => ignore (on_sd_packet p)
  | Op_on_timesync p => ignore (on_timesync p)
  | Op_node_now_since_ms => ignore node_now_since_ms
  | Op_telemetry_can_rx b l => telemetry_can_rx b l
  | Op_rx_asynchronous b l => rx_asynchronous b l
  | Op_rx_synchronous b l => rx_synchronous b l
  | Op_telemetry_timesync_request => ignore telemetry_timesync_request
  | Op_telemetry_timesync_announce p u => ignore (telemetry_timesync_announce p u)
  | Op_init_telemetry_router => ignore init_telemetry_router
  | Op_log_telemetry_synchronous dt d c z => ignore (log_telemetry_synchronous dt d c z)
  | Op_log_telemetry_asynchronous dt d c z => ignore (log_telemetry_asynchronous dt d c z)
  | Op_dispatch_tx_queue => ignore dispatch_tx_queue
  | Op_process_rx_queue => ignore process_rx_queue
  | Op_dispatch_tx_queue_timeout t => ignore (dispatch_tx_queue_timeout t)
  | Op_process_rx_queue_timeout t => ignore (process_rx_queue_timeout t)
  | Op_process_all_queues_timeout t => ignore (process_all_queues_timeout t)
  | Op_log_error_asyncronous f => ignore (log_error_asyncronous f)
  | Op_log_error_syncronous f => ignore (log_error_syncronous f)
  | Op_print_telemetry_error c f => ignore (print_telemetry_error c f)
  end.

(** The state after a sequence of operations. *)
Fixpoint run (ops : list Op) (s : State) : State :=
  match ops with
  | [] => s
  | o :: rest => run rest (state_after (exec o) s)
  end.

(** [n] successive calls of [client_apply_offset_ms] with the same
    candidate. *)
Fixpoint apply_repeatedly (n : nat) (candidate : Z) (s : State) : State :=
  match n with
  | O => s
  | S n' => apply_repeatedly n' candidate
              (state_after (client_apply_offset_ms candidate) s)
  end.

End Telemetry.

(** ** Builds, environments and packets used in examples *)

(** The default constants of [telemetry.c] on a 1 kHz ThreadX tick, with
    the telemetry subsystem enabled, for the two roles. *)
Definition client_config : Config := {|
  TELEMETRY_ENABLED := true;
  TELEMETRY_TIME_MASTER := false;
  TX_TIMER_TICKS_PER_SECOND := 1000;
  NET_TIMESYNC_MAX_STEP_MS := 30000;
  NET_TIMESYNC_SMOOTH_DIV := 4
|}.

Definition master_config : Config := {|
  TELEMETRY_ENABLED := true;
  TELEMETRY_TIME_MASTER := true;
  TX_TIMER_TICKS_PER_SECOND := 1000;
  NET_TIMESYNC_MAX_STEP_MS := 30000;
  NET_TIMESYNC_SMOOTH_DIV := 4
|}.

(** The constants a build may set: a positive [int64_t] divisor and a
    non-negative [int] bound. *)
Definition config_ok (cfg : Config) : Prop :=
  1 <= NET_TIMESYNC_SMOOTH_DIV cfg < 2 ^ 63 /\
  0 <= NET_TIMESYNC_MAX_STEP_MS cfg < 2 ^ 31.

(** An environment in which the hardware counter reads [ticks] at every
    call, the CAN driver answers [hal], [seds_router_new] answers [rt],
    [seds_router_add_side_serialized] answers [side] and every other
    sedsprintf call answers [res]. *)
Definition constant_env (ticks : Z) (hal : HAL_StatusTypeDef)
    (rt : option SedsRouter) (side : Z) (res : SedsResult) : Env := {|
  tx_time_get := fun _ => ticks;
  can_bus_subscribe_rx := fun _ => hal;
  can_bus_send_large := fun _ => hal;
  seds_router_new := fun _ => rt;
  seds_router_add_side_serialized := fun _ => side;
  seds_result := fun _ => res;
  seds_error_to_string_len := fun _ => 0;
  SedsResult_of_int := fun z => if z =? 0 then SEDS_OK else SEDS_OTHER z
|}.

(** A packet view of type [dt] over the 64-bit little-endian [fields]. *)
Definition packet_of (dt : SedsDataType) (fields : list Z) : SedsPacketView :=
  let bytes := flat_map store_u64 fields in
  {| ty := dt; payload := Some bytes; payload_len := Z.of_nat (length bytes) |}.

(** ** Notions used in the statements *)

(** [SyncOffsetMs] after [n] applications of the candidate [c] lies between
    0 and [c]: it has not passed the candidate. *)
Definition not_past (c g : Z) : Prop := Z.abs g <= Z.abs c /\ 0 <= g * c.

Definition no_overshoot (cfg : Config) (c : Z) (s : State) : Prop :=
  forall n : nat,
    not_past c (g_master_offset_ms (apply_repeatedly cfg n c s)).

(** A relation between the state before and the state after that every run
    of [m] satisfies. *)
Definition respects (R : State -> State -> Prop) {A : Type} (m : M A) : Prop :=
  forall s : State, R s (state_after m s).

(** Validity of the unix base is not lost. *)
Definition unix_stays_valid (s s' : State) : Prop :=
  g_unix_valid s = 1 -> g_unix_valid s' = 1.

Definition is_log_typed_ex (c : Call) : bool :=
  match c with
  | Call_seds_router_log_typed_ex _ _ _ _ _ _ _ => true
  | _ => false
  end.

(** The calls made between [s] and [s'], none of which enqueues a typed
    sample. *)
Definition no_enqueue (s s' : State) : Prop :=
  exists made : list Call,
    trace s' = made ++ trace s /\
    forallb (fun c => negb (is_log_typed_ex c)) made = true.

(** [init_telemetry_router] returns at once on such a state. *)
Definition router_created (s : State) : bool :=
  negb (created (g_router s) =? 0)
  && match r (g_router s) with Some _ => true | None => false end.

(** The calls [init_telemetry_router] makes before [seds_router_new] when
    it starts from [s]: the subscription if none was made, and the [printf]
    that reports its failure. *)
Definition calls_before_router_new (env : Env) (s : State) : nat :=
  if g_can_rx_subscribed s =? 0 then
    match can_bus_subscribe_rx env (length (trace s)) with
    | HAL_OK => 1
    | _ => 2
    end
  else 0.

(** What [seds_router_new] and [seds_router_add_side_serialized] answer to
    the [init_telemetry_router] that starts from [s]. *)
Definition router_new_answer (env : Env) (s : State) : option SedsRouter :=
  seds_router_new env (length (trace s) + calls_before_router_new env s).

Definition add_side_answer (env : Env) (s : State) : Z :=
  seds_router_add_side_serialized env
    (length (trace s) + calls_before_router_new env s + 1).

(** The prologue of an entry point lets it through: the router exists, or
    the lazy creation succeeds. *)
Definition router_available (cfg : Config) (env : Env) (s : State) : bool :=
  match r (g_router s) with
  | Some _ => true
  | None =>
      match result_of (init_telemetry_router cfg env) s with
      | SEDS_OK => true
      | _ => false
      end
  end.

Definition bad_log_arguments (data : buffer) (count size : Z) : Prop :=
  data = None \/ count = 0 \/ size = 0.

(** ** Notions used in the further properties *)

(** A run of the hardware counter given as true (unwrapped) tick counts:
    each count is at least the one before it and less than one full period
    of the 32-bit counter after it. *)
Fixpoint ticks_advance (prev : Z) (ticks : list Z) : Prop :=
  match ticks with
  | [] => True
  | t :: rest => prev <= t < prev + 2 ^ 32 /\ ticks_advance t rest
  end.

(** The statics of [tx_raw_now_ms] that stand for the true tick count
    [t]. *)
Definition clock_tracks (t : Z) (c : Clock.statics) : Prop :=
  Clock.last_ticks32 c = t mod 2 ^ 32 /\ Clock.high c = t / 2 ^ 32 * 2 ^ 32.

(** The messages [on_timesync] answers [SEDS_OK] to without doing anything:
    a RESPONSE below 32 bytes, a REQUEST on a client or below 16 bytes, an
    ANNOUNCE on a master or below 16 bytes, and every other data type. *)
Definition dropped_silently (cfg : Config) (p : SedsPacketView) : bool :=
  match ty p with
  | SEDS_DT_TIME_SYNC_RESPONSE => payload_len p <? 32
  | SEDS_DT_TIME_SYNC_REQUEST =>
      negb (TELEMETRY_TIME_MASTER cfg) || (payload_len p <? 16)
  | SEDS_DT_TIME_SYNC_ANNOUNCE =>
      TELEMETRY_TIME_MASTER cfg || (payload_len p <? 16)
  | _ => true
  end.

(** The router pointer and the created flag of [g_router] agree. *)
Definition router_consistent (s : State) : Prop :=
  match r (g_router s) with
  | None => created (g_router s) = 0
  | Some _ => created (g_router s) = 1
  end.

(** The statics that only the time-sync protocol writes. *)
Definition same_timesync_state (s s' : State) : Prop :=
  g_master_offset_ms s' = g_master_offset_ms s /\
  g_last_delay_ms s' = g_last_delay_ms s /\
  g_unix_base_ms s' = g_unix_base_ms s /\
  g_unix_valid s' = g_unix_valid s /\
  g_timesync_seq s' = g_timesync_seq s.

(** [client_apply_offset_ms] is [static] and called from the client branch
    of [on_timesync] only: every other operation can be called on a
    master. *)
Definition callable_on_master (o : Op) : bool :=
  match o with
  | Op_client_apply_offset_ms _ => false
  | _ => true
  end.

(** The five queue entry points, each with the router call it makes. *)
Definition queue_entry_points (cfg : Config) (env : Env) (timeout_ms : Z)
  : list (M SedsResult * (option SedsRouter -> Call)) :=
  [ (dispatch_tx_queue cfg env, Call_seds_router_process_tx_queue);
    (process_rx_queue cfg env, Call_seds_router_process_rx_queue);
    (dispatch_tx_queue_timeout cfg env timeout_ms,
     fun rt => Call_seds_router_process_tx_queue_with_timeout rt timeout_ms);
    (process_rx_queue_timeout cfg env timeout_ms,
     fun rt => Call_seds_router_process_rx_queue_with_timeout rt timeout_ms);
    (process_all_queues_timeout cfg env timeout_ms,
     fun rt => Call_seds_router_process_all_queues_with_timeout rt timeout_ms) ].

(** [n] successive calls of [telemetry_timesync_request]. *)
Fixpoint request_repeatedly (cfg : Config) (env : Env) (n : nat) (s : State)
  : State :=
  match n with
  | O => s
  | S n' =>
      request_repeatedly cfg env n'
        (state_after (telemetry_timesync_request cfg env) s)
  end.

(** The sequence numbers of the REQUESTs handed to the router, the latest
    first. *)
Fixpoint request_sequences (calls : list Call) : list Z :=
  match calls with
  | [] => []
  | Call_seds_router_log_ts _ SEDS_DT_TIME_SYNC_REQUEST _ (q :: _) :: rest =>
      q :: request_sequences rest
  | _ :: rest => request_sequences rest
  end.

(** [first], [first + 1], ... ([n] numbers, modulo [2^64]), the last one
    first. *)
Fixpoint countdown (first : Z) (n : nat) : list Z :=
  match n with
  | O => []
  | S n' => wrap64 (first + Z.of_nat n') :: countdown first n'
  end.

(** The statics of the time-sync protocol other than the offset. *)
Definition same_delay_base_seq (s s' : State) : Prop :=
  g_last_delay_ms s' = g_last_delay_ms s /\
  g_unix_base_ms s' = g_unix_base_ms s /\
  g_unix_valid s' = g_unix_valid s /\
  g_timesync_seq s' = g_timesync_seq s.

(** The router state is kept as it is found to be consistent. *)
Definition keeps_router_consistent (s s' : State) : Prop :=
  router_consistent s -> router_consistent s'.

(** A zero offset stays zero. *)
Definition keeps_zero_offset (s s' : State) : Prop :=
  g_master_offset_ms s = 0 -> g_master_offset_ms s' = 0.

(** * Properties *)

(** ** Fixed-width arithmetic *)

Lemma wrap32_range z : 0 <= wrap32 z < 2 ^ 32.
Proof. unfold wrap32. apply Z.mod_pos_bound. lia. Qed.

Lemma wrap64_range z : 0 <= wrap64 z < 2 ^ 64.
Proof. unfold wrap64. apply Z.mod_pos_bound. lia. Qed.

Lemma wrap64_small z : 0 <= z < 2 ^ 64 -> wrap64 z = z.
Proof. unfold wrap64. intros. now apply Z.mod_small. Qed.

Lemma to_s64_range z : - 2 ^ 63 <= to_s64 z < 2 ^ 63.
Proof.
  unfold to_s64.
  assert (0 <= (z + 2 ^ 63) mod 2 ^ 64 < 2 ^ 64) by (apply Z.mod_pos_bound; lia).
  lia.
Qed.

Lemma to_s64_small z : - 2 ^ 63 <= z < 2 ^ 63 -> to_s64 z = z.
Proof. unfold to_s64. intros. rewrite Z.mod_small; lia. Qed.

(** [to_s64] only depends on its argument modulo [2^64]. *)
Lemma to_s64_congr a b : a mod 2 ^ 64 = b mod 2 ^ 64 -> to_s64 a = to_s64 b.
Proof.
  unfold to_s64. intros E.
  rewrite (Z.add_mod a), (Z.add_mod b), E by lia. reflexivity.
Qed.

Lemma to_s64_mod z : to_s64 z mod 2 ^ 64 = z mod 2 ^ 64.
Proof.
  unfold to_s64.
  rewrite Zminus_mod, Z.mod_mod, <- Zminus_mod by lia.
  f_equal. lia.
Qed.

Lemma to_s64_wrap64 z : to_s64 (wrap64 z) = to_s64 z.
Proof. apply to_s64_congr. unfold wrap64. now rewrite Z.mod_mod by lia. Qed.

(** ** C1: the extended clock *)

Module ClockFacts.
Import Clock.

Lemma shiftl_1_32 : Z.shiftl 1 32 = 2 ^ 32.
Proof. reflexivity. Qed.

(** The low word does not overlap a multiple of [2^32]: [|] is [+]. *)
Lemma lor_high_low w c :
  0 <= c < 2 ^ 32 -> Z.lor (w * 2 ^ 32) c = w * 2 ^ 32 + c.
Proof.
  intros Hc.
  assert (L : Z.land (w * 2 ^ 32) c = 0).
  { apply Z.bits_inj'. intros n Hn.
    rewrite Z.land_spec, Z.bits_0, <- Z.shiftl_mul_pow2 by lia.
    destruct (Z.ltb_spec n 32).
    - rewrite Z.shiftl_spec_low by lia. reflexivity.
    - replace c with (c mod 2 ^ 32) by (apply Z.mod_small; lia).
      rewrite Z.mod_pow2_bits_high by lia. apply andb_false_r. }
  rewrite <- Z.lxor_lor by exact L.
  symmetry. apply Z.add_nocarry_lxor. exact L.
Qed.

Lemma wf_init : wf 0 init.
Proof. unfold wf, init; simpl. lia. Qed.

(** One call below the overflow bound: the wrap count grows by the wrap
    seen, the tick count does not decrease, and the result is the exact
    quotient. *)
Lemma tx_raw_now_ms_exact tps reading w c :
  0 < tps < 2 ^ 64 ->
  wf w c ->
  let w' := w + (if wrap32 reading <? last_ticks32 c then 1 else 0) in
  w' <= max_wraps ->
  let '(ms, c') := tx_raw_now_ms tps reading c in
  wf w' c' /\
  last_ticks32 c' = wrap32 reading /\
  ticks_of c <= ticks_of c' /\
  ms = ticks_of c' * 1000 / tps.
Proof.
  intros Htps (Hh & Hw & Hl) w' Hmax. unfold max_wraps in Hmax.
  unfold tx_raw_now_ms, ticks_of, wf. cbn [last_ticks32 high].
  pose proof (wrap32_range reading) as Hc.
  set (cur := wrap32 reading) in *.
  rewrite shiftl_1_32.
  assert (Hhigh :
    (if cur <? last_ticks32 c then wrap64 (high c + 2 ^ 32) else high c)
    = w' * 2 ^ 32 /\ w <= w' /\ w * 2 ^ 32 + last_ticks32 c <= w' * 2 ^ 32 + cur).
  { subst w'. destruct (Z.ltb_spec cur (last_ticks32 c)).
    - rewrite wrap64_small; lia.
    - lia. }
  destruct Hhigh as (Hhigh & Hww & Hmono).
  clearbody w'.
  rewrite Hhigh, lor_high_low by exact Hc.
  unfold to_u64. rewrite (wrap64_small tps) by lia.
  rewrite wrap64_small by lia.
  repeat split; lia.
Qed.

Lemma non_decreasing_cons x l :
  bounded_below x l -> non_decreasing l -> non_decreasing (x :: l).
Proof. destruct l; simpl; auto. Qed.

Lemma outputs_non_decreasing_from tps :
  0 < tps < 2 ^ 64 ->
  forall readings w c,
    wf w c ->
    w + wraps_seen (last_ticks32 c) readings <= max_wraps ->
    non_decreasing (outputs tps readings c) /\
    bounded_below (ticks_of c * 1000 / tps) (outputs tps readings c).
Proof.
  intros Htps. induction readings as [|rd rest IH]; intros w c Hwf Hb.
  - simpl. auto.
  - cbn [wraps_seen] in Hb.
    assert (Hrest : 0 <= wraps_seen (wrap32 rd) rest).
    { clear. generalize (wrap32 rd). induction rest as [|x l IHl]; intros p; simpl.
      - lia.
      - specialize (IHl (wrap32 x)). destruct (wrap32 x <? p); lia. }
    pose proof (tx_raw_now_ms_exact tps rd w c Htps Hwf) as Hstep.
    cbv zeta in Hstep.
    cbn [outputs].
    destruct (tx_raw_now_ms tps rd c) as [ms c'].
    destruct Hstep as (Hwf' & Hlast & Hmono & Hms); [lia|].
    destruct (IH _ c' Hwf') as (Hnd & Hlow).
    { rewrite Hlast. lia. }
    split.
    + apply non_decreasing_cons; [|exact Hnd].
      rewrite Hms. exact Hlow.
    + simpl. rewrite Hms.
      apply Z.div_le_mono; lia.
Qed.

Lemma non_decreasing_drop2 a b l :
  non_decreasing (a :: b :: l) -> non_decreasing l.
Proof. destruct l; simpl; tauto. Qed.

(** A pair of readings 1, 0 from a state that last read 0 adds one wrap. *)
Lemma after_one_tooth tps w :
  0 <= w -> w + 1 < 2 ^ 32 ->
  snd (tx_raw_now_ms tps 0 (snd (tx_raw_now_ms tps 1 (mk 0 (w * 2 ^ 32)))))
  = mk 0 ((w + 1) * 2 ^ 32).
Proof.
  intros Hw Hb. unfold tx_raw_now_ms. cbn [snd last_ticks32 high].
  change (wrap32 1) with 1. change (wrap32 0) with 0.
  change (1 <? 0) with false. change (0 <? 1) with true. cbv iota.
  rewrite shiftl_1_32, wrap64_small by lia.
  f_equal. lia.
Qed.

Lemma sawtooth_succ k tail :
  sawtooth (N.succ k) tail = 1 :: 0 :: sawtooth k tail.
Proof. unfold sawtooth. apply N.iter_succ. Qed.

(** Monotone outputs on a sawtooth force monotone outputs on its tail, from
    the state the teeth lead to. *)
Lemma sawtooth_tail tps tail :
  forall k w,
    0 <= w -> w + Z.of_N k < 2 ^ 32 ->
    non_decreasing (outputs tps (sawtooth k tail) (mk 0 (w * 2 ^ 32))) ->
    non_decreasing (outputs tps tail (mk 0 ((w + Z.of_N k) * 2 ^ 32))).
Proof.
  induction k as [|k IH] using N.peano_ind; intros w Hw Hb Hnd.
  - unfold sawtooth in Hnd. cbn [N.iter] in Hnd.
    replace (w + Z.of_N 0) with w by lia. exact Hnd.
  - rewrite sawtooth_succ in Hnd.
    rewrite N2Z.inj_succ in *.
    cbn [outputs] in Hnd.
    destruct (tx_raw_now_ms tps 1 (mk 0 (w * 2 ^ 32))) as [m1 c1] eqn:E1.
    destruct (tx_raw_now_ms tps 0 c1) as [m2 c2] eqn:E2.
    apply non_decreasing_drop2 in Hnd.
    pose proof (after_one_tooth tps w Hw ltac:(lia)) as Hc.
    rewrite E1 in Hc. cbn [snd] in Hc. rewrite E2 in Hc. cbn [snd] in Hc.
    subst c2.
    replace (w + Z.succ (Z.of_N k)) with ((w + 1) + Z.of_N k) by lia.
    apply IH; [lia | lia | exact Hnd].
Qed.

(** The statics after [k] teeth. *)
Lemma after_sawtooth tps :
  forall k w,
    0 <= w -> w + Z.of_N k < 2 ^ 32 ->
    after tps (sawtooth k []) (mk 0 (w * 2 ^ 32))
    = mk 0 ((w + Z.of_N k) * 2 ^ 32).
Proof.
  induction k as [|k IH] using N.peano_ind; intros w Hw Hb.
  - unfold sawtooth. cbn [N.iter after]. f_equal. lia.
  - rewrite sawtooth_succ. rewrite N2Z.inj_succ in *.
    cbn [after]. rewrite after_one_tooth by lia.
    rewrite IH by lia. f_equal. lia.
Qed.

End ClockFacts.

(** C1, as the code has it.  With [TX_TIMER_TICKS_PER_SECOND] any positive
    64-bit value, the values returned by successive calls of
    [tx_raw_now_ms], starting from the initial statics, are non-decreasing
    for every sequence of hardware readings on which the extender sees at
    most 4294966 wraps (so that [ticks64 * 1000] fits in 64 bits); this
    includes every wrap from a near-maximum reading to a small one. *)
Theorem C1_extended_clock_non_decreasing :
  forall (tps : Z) (readings : list Z),
    0 < tps < 2 ^ 64 ->
    Clock.wraps_seen 0 readings <= Clock.max_wraps ->
    Clock.non_decreasing (Clock.outputs tps readings Clock.init).
Proof.
  intros tps readings Htps Hb.
  apply (ClockFacts.outputs_non_decreasing_from tps Htps readings 0 Clock.init).
  - apply ClockFacts.wf_init.
  - exact Hb.
Qed.

(** The theorem at a run that wraps from [2^32 - 6] to 4, at 1000 ticks per
    second. *)
Lemma C1_extended_clock_witness :
  Clock.outputs 1000 [10; 4294967290; 4; 4; 9] Clock.init
    = [10; 4294967290; 4294967300; 4294967300; 4294967305] /\
  Clock.non_decreasing
    (Clock.outputs 1000 [10; 4294967290; 4; 4; 9] Clock.init).
Proof.
  split.
  - vm_compute. reflexivity.
  - apply (C1_extended_clock_non_decreasing 1000 [10; 4294967290; 4; 4; 9]).
    + lia.
    + vm_compute. discriminate.
Defined.

(** C1 as stated fails, by the 64-bit product [ticks64 * 1000]: after
    4294967 wraps (here 4294966 times the readings 1, 0, then 1, 0) the call
    that reads 0 returns 18446742802399232 and the next call, which reads
    [2^32 - 1] with no further wrap, returns 3023656975. *)
Lemma C1_counterexample :
  Clock.outputs 1000 [1; 0; 4294967295]
    (Clock.after 1000 (Clock.sawtooth 4294966 []) Clock.init)
  = [18446738507431937; 18446742802399232; 3023656975] /\
  ~ Clock.non_decreasing
      (Clock.outputs 1000 (Clock.sawtooth 4294966 [1; 0; 4294967295]) Clock.init).
Proof.
  split.
  - change Clock.init with (Clock.mk 0 (0 * 2 ^ 32)).
    rewrite ClockFacts.after_sawtooth by lia.
    vm_compute. reflexivity.
  - intros H.
    change Clock.init with (Clock.mk 0 (0 * 2 ^ 32)) in H.
    apply ClockFacts.sawtooth_tail in H; [|lia|lia].
    vm_compute in H.
    destruct H as (_ & H & _). apply H. reflexivity.
Qed.

(** ** C2: the estimator *)

Lemma to_s64_sub a b : to_s64 (to_s64 a - to_s64 b) = to_s64 (a - b).
Proof.
  apply to_s64_congr.
  rewrite Zminus_mod, !to_s64_mod, <- Zminus_mod by lia. reflexivity.
Qed.

(** The unsigned difference converted to [int64_t] is the signed 64-bit
    difference of the operands read as signed. *)
Lemma unsigned_diff_as_signed a b :
  to_s64 (wrap64 (a - b)) = EstimatorSpec.sub64 (to_s64 a) (to_s64 b).
Proof.
  unfold EstimatorSpec.sub64. now rewrite to_s64_wrap64, to_s64_sub.
Qed.

Lemma raw_delay_range t1 t2 t3 t4 :
  - 2 ^ 63 <= EstimatorSpec.raw_delay t1 t2 t3 t4 < 2 ^ 63.
Proof. unfold EstimatorSpec.raw_delay, EstimatorSpec.sub64 at 1. apply to_s64_range. Qed.

Lemma compute_offset_delay_unfold t1 t2 t3 t4 :
  compute_offset_delay t1 t2 t3 t4
  = (EstimatorSpec.offset t1 t2 t3 t4,
     if EstimatorSpec.raw_delay t1 t2 t3 t4 <? 0 then 0
     else to_u64 (EstimatorSpec.raw_delay t1 t2 t3 t4)).
Proof.
  unfold compute_offset_delay. rewrite !unsigned_diff_as_signed. reflexivity.
Qed.

(** C2.  For all 64-bit timestamps, [compute_offset_delay] writes the
    offset [((t2 - t1) + (t3 - t4)) / 2] of signed 64-bit arithmetic,
    truncated toward zero, and the delay [(t4 - t1) - (t3 - t2)] of signed
    64-bit arithmetic replaced by 0 when negative; the delay is never
    negative.  When the timestamps are below [2^62] no operation wraps and
    both are the exact integer values. *)
Theorem C2_compute_offset_delay_correct :
  forall t1 t2 t3 t4 : Z,
    is_u64 t1 -> is_u64 t2 -> is_u64 t3 -> is_u64 t4 ->
    compute_offset_delay t1 t2 t3 t4
      = (EstimatorSpec.offset t1 t2 t3 t4, EstimatorSpec.delay t1 t2 t3 t4) /\
    0 <= snd (compute_offset_delay t1 t2 t3 t4) < 2 ^ 63 /\
    (EstimatorSpec.raw_delay t1 t2 t3 t4 < 0 ->
       snd (compute_offset_delay t1 t2 t3 t4) = 0) /\
    (t1 < 2 ^ 62 -> t2 < 2 ^ 62 -> t3 < 2 ^ 62 -> t4 < 2 ^ 62 ->
       compute_offset_delay t1 t2 t3 t4
         = (Z.quot ((t2 - t1) + (t3 - t4)) 2,
            Z.max 0 ((t4 - t1) - (t3 - t2)))).
Proof.
  intros t1 t2 t3 t4 H1 H2 H3 H4. unfold is_u64 in *.
  rewrite compute_offset_delay_unfold. cbn [snd].
  unfold EstimatorSpec.delay, to_u64.
  pose proof (raw_delay_range t1 t2 t3 t4) as Hr.
  assert (Hd :
    (if EstimatorSpec.raw_delay t1 t2 t3 t4 <? 0 then 0
     else wrap64 (EstimatorSpec.raw_delay t1 t2 t3 t4))
    = (if EstimatorSpec.raw_delay t1 t2 t3 t4 <? 0 then 0
       else EstimatorSpec.raw_delay t1 t2 t3 t4)).
  { destruct (Z.ltb_spec (EstimatorSpec.raw_delay t1 t2 t3 t4) 0);
      [reflexivity | apply wrap64_small; lia]. }
  rewrite Hd. clear Hd.
  split; [reflexivity|].
  split; [|split].
  - destruct (Z.ltb_spec (EstimatorSpec.raw_delay t1 t2 t3 t4) 0); lia.
  - intros Hneg.
    destruct (Z.ltb_spec (EstimatorSpec.raw_delay t1 t2 t3 t4) 0); lia.
  - intros B1 B2 B3 B4. clear Hr.
    unfold EstimatorSpec.offset, EstimatorSpec.raw_delay,
      EstimatorSpec.add64, EstimatorSpec.sub64.
    rewrite (to_s64_small t1), (to_s64_small t2),
      (to_s64_small t3), (to_s64_small t4) by lia.
    rewrite (to_s64_small (t2 - t1)), (to_s64_small (t3 - t4)),
      (to_s64_small (t4 - t1)), (to_s64_small (t3 - t2)) by lia.
    rewrite !to_s64_small by lia.
    f_equal.
    destruct (Z.ltb_spec (t4 - t1 - (t3 - t2)) 0); lia.
Qed.

(** The theorem at the exchange t1 = 1000, t2 = 1010, t3 = 1012,
    t4 = 1025: offset -1 (from -3 / 2), delay 23. *)
Lemma C2_compute_offset_delay_witness :
  compute_offset_delay 1000 1010 1012 1025 = (-1, 23) /\
  compute_offset_delay 1000 1010 1012 1025
    = (EstimatorSpec.offset 1000 1010 1012 1025,
       EstimatorSpec.delay 1000 1010 1012 1025).
Proof.
  split.
  - vm_compute. reflexivity.
  - apply (C2_compute_offset_delay_correct 1000 1010 1012 1025);
      unfold is_u64; lia.
Defined.

(** ** C3: the offset-application policy *)

(** Truncated division by a positive divisor shrinks toward zero. *)
Lemma quot_shrinks c d :
  1 <= d ->
  Z.abs (Z.quot c d) <= Z.abs c /\
  (0 <= c -> 0 <= Z.quot c d) /\
  (c <= 0 -> Z.quot c d <= 0).
Proof.
  intros Hd.
  destruct (Z.le_ge_cases 0 c) as [Hc|Hc].
  - assert (0 <= Z.quot c d <= c).
    { rewrite Z.quot_div_nonneg by lia. split.
      - apply Z.div_pos; lia.
      - apply Z.div_le_upper_bound; nia. }
    repeat split; lia.
  - assert (E : Z.quot c d = - Z.quot (- c) d).
    { rewrite Z.quot_opp_l by lia. lia. }
    assert (0 <= Z.quot (- c) d <= - c).
    { rewrite Z.quot_div_nonneg by lia. split.
      - apply Z.div_pos; lia.
      - apply Z.div_le_upper_bound; nia. }
    repeat split; lia.
Qed.

Section OffsetPolicy.

Variable cfg : Config.
Hypothesis cfg_ok : config_ok cfg.

Lemma smoothed_step_cases c :
  smoothed_step cfg c =
    if Z.quot c (NET_TIMESYNC_SMOOTH_DIV cfg) =? 0
    then Z.sgn c
    else Z.quot c (NET_TIMESYNC_SMOOTH_DIV cfg).
Proof.
  destruct cfg_ok as (Hd & _).
  unfold smoothed_step. rewrite to_s64_small by lia.
  destruct (Z.eqb_spec (Z.quot c (NET_TIMESYNC_SMOOTH_DIV cfg)) 0) as [E|E];
    [|reflexivity].
  destruct (Z.gtb_spec c 0); [lia|].
  destruct (Z.ltb_spec c 0); lia.
Qed.

Lemma smoothed_step_bounds c :
  c <> 0 ->
  1 <= Z.abs (smoothed_step cfg c) <= Z.abs c /\
  Z.sgn (smoothed_step cfg c) = Z.sgn c.
Proof.
  intros Hc. destruct cfg_ok as (Hd & _).
  rewrite smoothed_step_cases.
  pose proof (quot_shrinks c (NET_TIMESYNC_SMOOTH_DIV cfg) ltac:(lia))
    as (Ha & Hp & Hn).
  destruct (Z.eqb_spec (Z.quot c (NET_TIMESYNC_SMOOTH_DIV cfg)) 0); lia.
Qed.

Lemma client_apply_offset_ms_rejects c s :
  NET_TIMESYNC_MAX_STEP_MS cfg < Z.abs c ->
  client_apply_offset_ms cfg c s = (tt, s).
Proof.
  intros Hc. unfold client_apply_offset_ms.
  destruct (Z.gtb_spec c (NET_TIMESYNC_MAX_STEP_MS cfg)); [reflexivity|].
  destruct (Z.ltb_spec c (- NET_TIMESYNC_MAX_STEP_MS cfg)); [reflexivity|].
  lia.
Qed.

Lemma client_apply_offset_ms_accepts c s :
  Z.abs c <= NET_TIMESYNC_MAX_STEP_MS cfg ->
  client_apply_offset_ms cfg c s
  = (tt, set_master_offset_ms
           (to_s64 (g_master_offset_ms s + smoothed_step cfg c)) s).
Proof.
  intros Hc. unfold client_apply_offset_ms.
  destruct (Z.gtb_spec c (NET_TIMESYNC_MAX_STEP_MS cfg)); [lia|].
  destruct (Z.ltb_spec c (- NET_TIMESYNC_MAX_STEP_MS cfg)); [lia|].
  reflexivity.
Qed.

(** As long as the sum stays in [int64_t], [n] applications add [n]
    steps. *)
Lemma apply_repeatedly_linear c :
  Z.abs c <= NET_TIMESYNC_MAX_STEP_MS cfg ->
  forall (n : nat) (s : State),
    Z.abs (g_master_offset_ms s) + Z.of_nat n * Z.abs (smoothed_step cfg c) < 2 ^ 63 ->
    g_master_offset_ms (apply_repeatedly cfg n c s)
    = g_master_offset_ms s + Z.of_nat n * smoothed_step cfg c.
Proof.
  intros Hc. induction n as [|n IH]; intros s Hb.
  - simpl. lia.
  - cbn [apply_repeatedly]. unfold state_after.
    rewrite client_apply_offset_ms_accepts by exact Hc. cbn [snd].
    rewrite Nat2Z.inj_succ, Z.mul_succ_l in *.
    assert (Hs : to_s64 (g_master_offset_ms s + smoothed_step cfg c)
                 = g_master_offset_ms s + smoothed_step cfg c).
    { apply to_s64_small.
      assert (0 <= Z.of_nat n * Z.abs (smoothed_step cfg c)) by nia. lia. }
    rewrite IH; cbn [g_master_offset_ms set_master_offset_ms]; rewrite Hs.
    + lia.
    + lia.
Qed.

End OffsetPolicy.

(** C3.  A candidate whose magnitude exceeds [NET_TIMESYNC_MAX_STEP_MS]
    leaves the whole state, and so [g_master_offset_ms], unchanged.  For a
    non-zero candidate within the bound, [client_apply_offset_ms] adds to
    [g_master_offset_ms] a step of magnitude at least 1 and at most the
    candidate's, of the candidate's sign; the step is [+1] or [-1] exactly
    when candidate / [NET_TIMESYNC_SMOOTH_DIV] truncates to zero. *)
Theorem C3_client_apply_offset_ms_bounded :
  forall (cfg : Config) (candidate : Z) (s : State),
    config_ok cfg ->
    (NET_TIMESYNC_MAX_STEP_MS cfg < Z.abs candidate ->
       state_after (client_apply_offset_ms cfg candidate) s = s) /\
    (0 < Z.abs candidate <= NET_TIMESYNC_MAX_STEP_MS cfg ->
       let step := smoothed_step cfg candidate in
       g_master_offset_ms (state_after (client_apply_offset_ms cfg candidate) s)
         = to_s64 (g_master_offset_ms s + step) /\
       (is_s64 (g_master_offset_ms s + step) ->
        g_master_offset_ms (state_after (client_apply_offset_ms cfg candidate) s)
          = g_master_offset_ms s + step) /\
       1 <= Z.abs step <= Z.abs candidate /\
       Z.sgn step = Z.sgn candidate /\
       (Z.quot candidate (NET_TIMESYNC_SMOOTH_DIV cfg) = 0 ->
          step = Z.sgn candidate) /\
       (Z.quot candidate (NET_TIMESYNC_SMOOTH_DIV cfg) <> 0 ->
          step = Z.quot candidate (NET_TIMESYNC_SMOOTH_DIV cfg))).
Proof.
  intros cfg c s Hcfg. split.
  - intros Hbig. unfold state_after.
    now rewrite client_apply_offset_ms_rejects.
  - intros (Hnz & Hle). cbv zeta. unfold state_after.
    rewrite client_apply_offset_ms_accepts by exact Hle.
    cbn [snd g_master_offset_ms set_master_offset_ms].
    pose proof (smoothed_step_bounds cfg Hcfg c ltac:(lia)) as (Hb & Hs).
    pose proof (smoothed_step_cases cfg Hcfg c) as Hcases.
    repeat split; try lia.
    + intros Hr. apply to_s64_small. exact Hr.
    + intros Hq. rewrite Hcases, Hq. reflexivity.
    + intros Hq. rewrite Hcases.
      destruct (Z.eqb_spec (Z.quot c (NET_TIMESYNC_SMOOTH_DIV cfg)) 0); congruence.
Qed.

(** The theorem on the default build: the candidate -1 moves the offset
    from 0 to -1 (unit step), the candidate 30001 is discarded. *)
Lemma C3_client_apply_offset_ms_witness :
  g_master_offset_ms
    (state_after (client_apply_offset_ms client_config (-1)) initial_state) = -1 /\
  state_after (client_apply_offset_ms client_config 30001) initial_state
    = initial_state /\
  1 <= Z.abs (smoothed_step client_config (-1)) <= Z.abs (-1).
Proof.
  assert (Hcfg : config_ok client_config) by (unfold config_ok; simpl; lia).
  split; [|split].
  - vm_compute. reflexivity.
  - apply (C3_client_apply_offset_ms_bounded client_config 30001 initial_state Hcfg).
    simpl. lia.
  - apply (C3_client_apply_offset_ms_bounded client_config (-1) initial_state Hcfg).
    simpl. lia.
Defined.

(** ** C4: repeated application of a constant candidate *)

(** C4 fails on the code.  On the default build, from
    [g_master_offset_ms = 0], the constant candidate 1000 takes the offset
    to 250, 500, 750, 1000 and then on to 1250, 1500, ...: after [n] calls
    of [client_apply_offset_ms] it is [250 * n] (shown for the first 40
    calls), so the fifth call passes the candidate and the offset never
    settles.  [client_apply_offset_ms] keeps adding a quarter of the
    candidate and nothing subtracts what has already been applied.
    The same happens through [on_timesync]: t1 and t4 are raw clock
    readings, so a client whose raw clock is 1000 ms behind the master's
    estimates the candidate 1000 at every RESPONSE, whatever offset it has
    already applied; after 5 exchanges its offset is 1250 and after 40 it
    is 10000. *)
Theorem C4_constant_candidate_overshoots :
  map (fun n => g_master_offset_ms
                  (apply_repeatedly client_config n 1000 initial_state))
      (seq 1 40)
  = map (fun n => 250 * Z.of_nat n) (seq 1 40) /\
  g_master_offset_ms (apply_repeatedly client_config 5 1000 initial_state) = 1250 /\
  ~ no_overshoot client_config 1000 initial_state /\
  (let env := constant_env 5000 HAL_OK (Some 1) 0 SEDS_OK in
   let p := packet_of SEDS_DT_TIME_SYNC_RESPONSE [1; 5000; 6000; 6000] in
   let exchanges (n : nat) :=
     run client_config env (repeat (Op_on_timesync (Some p)) n) initial_state in
   fst (compute_offset_delay 5000 6000 6000 5000) = 1000 /\
   map (fun n => g_master_offset_ms (exchanges n)) [1; 2; 3; 4; 5; 40]%nat
   = [250; 500; 750; 1000; 1250; 10000]).
Proof.
  split; [vm_compute; reflexivity|].
  split; [vm_compute; reflexivity|].
  split.
  - intros H. specialize (H 5%nat). unfold not_past in H.
    vm_compute in H. destruct H as (H & _). apply H. reflexivity.
  - cbv zeta. split; vm_compute; reflexivity.
Qed.

(** ** Symbolic runs *)

Lemma tx_raw_now_ms_run cfg env s :
  tx_raw_now_ms cfg env s =
    let out := Clock.tx_raw_now_ms (TX_TIMER_TICKS_PER_SECOND cfg)
                 (tx_time_get env (length (trace s))) (tx_raw_now_ms_statics s) in
    (fst out, set_statics (snd out) (set_trace (Call_tx_time_get :: trace s) s)).
Proof. reflexivity. Qed.

Lemma telemetry_now_ms_run cfg env s :
  telemetry_now_ms cfg env s =
    let t := to_s64 (to_s64 (result_of (tx_raw_now_ms cfg env) s)
                     + g_master_offset_ms s) in
    (to_u64 (if t <? 0 then 0 else t), state_after (tx_raw_now_ms cfg env) s).
Proof. reflexivity. Qed.

(** ** C5: a RESPONSE one byte short *)

(** C5.  A [SEDS_DT_TIME_SYNC_RESPONSE] packet with a payload of 31 bytes
    leaves every static unchanged, so neither [g_master_offset_ms] nor
    [g_last_delay_ms] changes, no collaborator is called, and [on_timesync]
    returns [SEDS_OK]. *)
Theorem C5_short_response_dropped :
  forall (cfg : Config) (env : Env) (p : SedsPacketView) (bytes : list Z)
         (s : State),
    ty p = SEDS_DT_TIME_SYNC_RESPONSE ->
    payload p = Some bytes ->
    payload_len p = 31 ->
    on_timesync cfg env (Some p) s = (SEDS_OK, s) /\
    g_master_offset_ms (state_after (on_timesync cfg env (Some p)) s)
      = g_master_offset_ms s /\
    g_last_delay_ms (state_after (on_timesync cfg env (Some p)) s)
      = g_last_delay_ms s.
Proof.
  intros cfg env p bytes s Hty Hpay Hlen.
  assert (E : on_timesync cfg env (Some p) s = (SEDS_OK, s)).
  { unfold on_timesync. rewrite Hpay, Hty, Hlen. reflexivity. }
  unfold state_after. rewrite E. auto.
Qed.

(** The theorem on a client whose offset and delay are already set, with
    31 bytes that would otherwise decode to a large correction. *)
Lemma C5_short_response_witness :
  let p := {| ty := SEDS_DT_TIME_SYNC_RESPONSE;
              payload := Some (firstn 31 (flat_map store_u64 [1; 1000; 9000; 9001]));
              payload_len := 31 |} in
  let s := set_last_delay_ms 23 (set_master_offset_ms (-1) initial_state) in
  let env := constant_env 1025 HAL_OK (Some 1) 0 SEDS_OK in
  on_timesync client_config env (Some p) s = (SEDS_OK, s) /\
  g_master_offset_ms (state_after (on_timesync client_config env (Some p)) s) = -1 /\
  g_last_delay_ms (state_after (on_timesync client_config env (Some p)) s) = 23.
Proof.
  intros p s env.
  apply (C5_short_response_dropped client_config env p
           (firstn 31 (flat_map store_u64 [1; 1000; 9000; 9001])) s);
    reflexivity.
Defined.

(** ** Relations that every operation respects *)

Section Respects.

Context (R : State -> State -> Prop) {R_preorder : PreOrder R}.

Lemma respects_ret {A : Type} (a : A) : respects R (ret a).
Proof. intros s. unfold state_after, ret. simpl. reflexivity. Qed.

Lemma respects_gets {A : Type} (f : State -> A) : respects R (gets f).
Proof. intros s. unfold state_after, gets. simpl. reflexivity. Qed.

Lemma respects_bind {A B : Type} (m : M A) (k : A -> M B) :
  respects R m -> (forall a, respects R (k a)) -> respects R (bind m k).
Proof.
  intros Hm Hk s. unfold state_after, bind.
  specialize (Hm s). unfold state_after in Hm.
  destruct (m s) as [a s1]. simpl in Hm.
  specialize (Hk a s1). unfold state_after in Hk.
  etransitivity; eassumption.
Qed.

Lemma respects_modify (f : State -> State) :
  (forall s, R s (f s)) -> respects R (modify f).
Proof. intros H s. apply H. Qed.

Lemma respects_call {A : Type} (env : Env) (c : Call) (answer : Env -> nat -> A) :
  (forall s, R s (set_trace (c :: trace s) s)) -> respects R (call env c answer).
Proof. intros H s. apply H. Qed.

Lemma respects_call_ (c : Call) :
  (forall s, R s (set_trace (c :: trace s) s)) -> respects R (call_ c).
Proof. intros H s. apply H. Qed.

End Respects.

Create HintDb telemetry.
#[local] Hint Unfold
  tx_raw_now_ms telemetry_master_offset_ms_get telemetry_master_offset_ms_set
  telemetry_last_delay_ms_get telemetry_last_delay_ms_set telemetry_now_ms
  telemetry_unix_ms telemetry_unix_s telemetry_unix_is_valid
  telemetry_set_unix_time_ms client_apply_offset_ms tx_send on_sd_packet
  on_timesync node_now_since_ms init_telemetry_router with_router
  rx_asynchronous telemetry_can_rx rx_synchronous telemetry_timesync_request
  telemetry_timesync_announce print_data_no_telem log_telemetry
  log_telemetry_synchronous log_telemetry_asynchronous queue_call
  dispatch_tx_queue process_rx_queue dispatch_tx_queue_timeout
  process_rx_queue_timeout process_all_queues_timeout log_error
  log_error_asyncronous log_error_syncronous print_telemetry_error
  ignore exec : telemetry.

(** One step through the structure of a function body; [leaf] closes the
    obligations on the state updates and the calls. *)
Ltac respects_step leaf :=
  lazymatch goal with
  | |- respects _ (ret _) => apply respects_ret; exact _
  | |- respects _ (gets _) => apply respects_gets; exact _
  | |- respects _ (bind _ _) => apply respects_bind; [exact _ | | intros ?]
  | |- respects _ (modify _) => apply respects_modify; intros ?; leaf
  | |- respects _ (call _ _ _) => apply respects_call; intros ?; leaf
  | |- respects _ (call_ _) => apply respects_call_; intros ?; leaf
  | |- respects _ (if ?b then _ else _) => destruct b
  | |- respects _ (match ?x with _ => _ end) => destruct x
  | |- respects _ _ => progress autounfold with telemetry
  end.

Ltac respects_all leaf := repeat respects_step leaf.

(** ** C6: validity of the unix base *)

#[local] Instance unix_stays_valid_preorder : PreOrder unix_stays_valid.
Proof.
  split.
  - intros s H. exact H.
  - intros a b c Hab Hbc H. apply Hbc, Hab, H.
Qed.

Ltac valid_leaf := unfold unix_stays_valid; cbn; intros; solve [assumption | reflexivity].

Lemma exec_keeps_unix_valid cfg env (o : Op) :
  respects unix_stays_valid (exec cfg env o).
Proof.
  destruct o; respects_all valid_leaf.
Qed.

(** C6.  The unix-validity flag becomes 1 by a master-role
    [telemetry_set_unix_time_ms] and by a client-role ANNOUNCE of at least
    16 bytes handled by [on_timesync]; once [g_unix_valid = 1], it is 1
    after every sequence of operations of the core. *)
Theorem C6_unix_valid_monotone :
  forall (cfg : Config) (env : Env),
    (forall (unix_ms : Z) (s : State),
       TELEMETRY_TIME_MASTER cfg = true ->
       g_unix_valid (state_after (telemetry_set_unix_time_ms cfg env unix_ms) s) = 1) /\
    (forall (p : SedsPacketView) (bytes : list Z) (s : State),
       TELEMETRY_TIME_MASTER cfg = false ->
       ty p = SEDS_DT_TIME_SYNC_ANNOUNCE ->
       payload p = Some bytes ->
       16 <= payload_len p ->
       g_unix_valid (state_after (on_timesync cfg env (Some p)) s) = 1) /\
    (forall (ops : list Op) (s : State),
       g_unix_valid s = 1 -> g_unix_valid (run cfg env ops s) = 1).
Proof.
  intros cfg env. split; [|split].
  - intros u s Hm. unfold telemetry_set_unix_time_ms. rewrite Hm.
    unfold state_after, bind, modify.
    destruct (telemetry_now_ms cfg env s) as [t s1]. reflexivity.
  - intros p bytes s Hm Hty Hpay Hlen.
    unfold on_timesync. rewrite Hpay, Hty, Hm.
    apply Z.leb_le in Hlen. rewrite Hlen. cbn [SedsDataType_eqb andb negb].
    unfold state_after, bind, modify, telemetry_last_delay_ms_get, gets, ret.
    destruct (telemetry_now_ms cfg env s) as [t s1]. reflexivity.
  - induction ops as [|o ops IH]; intros s Hs.
    + exact Hs.
    + cbn [run]. apply IH. apply (exec_keeps_unix_valid cfg env o s Hs).
Qed.

(** The theorem on a master that is given the time and then initialises,
    answers a request, announces, logs and drains its queues. *)
Lemma C6_unix_valid_witness :
  let env := constant_env 1025 HAL_OK (Some 1) 0 SEDS_OK in
  let s1 :=
    state_after (telemetry_set_unix_time_ms master_config env 1700000000000)
      initial_state in
  g_unix_valid initial_state = 0 /\
  g_unix_valid s1 = 1 /\
  g_unix_valid
    (run master_config env
       [Op_init_telemetry_router;
        Op_on_timesync (Some (packet_of SEDS_DT_TIME_SYNC_REQUEST [7; 500]));
        Op_on_timesync (Some (packet_of SEDS_DT_TIME_SYNC_ANNOUNCE [0; 5]));
        Op_telemetry_timesync_announce 0 1700000000100;
        Op_telemetry_set_unix_time_ms 0;
        Op_log_telemetry_synchronous SEDS_DT_MESSAGE_DATA None 0 0;
        Op_process_all_queues_timeout 5;
        Op_telemetry_unix_ms]
       s1) = 1.
Proof.
  intros env s1.
  assert (H1 : g_unix_valid s1 = 1)
    by (apply (C6_unix_valid_monotone master_config env); reflexivity).
  split; [reflexivity|]. split; [exact H1|].
  apply (C6_unix_valid_monotone master_config env). exact H1.
Defined.

(** ** C7: a RESPONSE on the master *)




(** ** C8: router initialisation *)

(** C8, as the code has it.  With telemetry enabled:
    on a state where the router is created, [init_telemetry_router] returns
    [SEDS_OK] and changes nothing;
    otherwise, when [seds_router_new] (which also registers the endpoints)
    answers [NULL], it returns [SEDS_ERR] and leaves the router pointer
    null, the created flag 0 and the side id -1, so the next call tries
    again;
    otherwise it returns [SEDS_OK] with the router stored and the created
    flag 1, whatever the subscription and
    [seds_router_add_side_serialized] answered: a negative side id is
    replaced by -1 and initialisation still succeeds. *)
Theorem C8_init_telemetry_router_outcomes :
  forall (cfg : Config) (env : Env) (s : State),
    TELEMETRY_ENABLED cfg = true ->
    let res := result_of (init_telemetry_router cfg env) s in
    let s' := state_after (init_telemetry_router cfg env) s in
    (router_created s = true -> res = SEDS_OK /\ s' = s) /\
    (router_created s = false -> router_new_answer env s = None ->
       res = SEDS_ERR /\
       r (g_router s') = None /\ created (g_router s') = 0 /\
       g_can_side_id s' = -1 /\ router_created s' = false) /\
    (router_created s = false ->
       forall rt, router_new_answer env s = Some rt ->
       res = SEDS_OK /\
       r (g_router s') = Some rt /\ created (g_router s') = 1 /\
       router_created s' = true /\
       g_can_side_id s' =
         (if add_side_answer env s <? 0 then -1 else add_side_answer env s)).
Proof.
  intros cfg env s Hen. cbv zeta.
  unfold result_of, state_after, init_telemetry_router,
    router_new_answer, add_side_answer, calls_before_router_new, router_created.
  rewrite Hen. cbn [negb].
  cbv beta iota delta [bind gets modify ret call call_].
  destruct (negb (created (g_router s) =? 0)
            && match r (g_router s) with Some _ => true | None => false end)
    eqn:Hc.
  { repeat split; intros; try discriminate; reflexivity. }
  split; [discriminate|].
  destruct (g_can_rx_subscribed s =? 0);
    [destruct (can_bus_subscribe_rx env (length (trace s)))|];
    cbn [fst snd trace set_trace set_can_rx_subscribed length];
    rewrite ?Nat.add_1_r, <- ?plus_n_Sm, <- ?plus_n_O;
    (split; intros _;
     [ intros Hn; rewrite Hn; cbn; repeat split
     | intros rt Hn; rewrite Hn; cbv beta iota;
       cbn [fst snd trace set_trace set_can_side_id length];
       match goal with
       | |- context [?a <? 0] => destruct (a <? 0)
       end;
       rewrite telemetry_now_ms_run; cbv zeta;
       destruct (TELEMETRY_TIME_MASTER cfg); cbn; repeat split ]).
Qed.

(** The theorem on a first call for which [seds_router_new] answers
    [NULL], and on the retry. *)
Lemma C8_init_telemetry_router_witness :
  let env := constant_env 0 HAL_OK None 0 SEDS_OK in
  let s1 := state_after (init_telemetry_router client_config env) initial_state in
  (result_of (init_telemetry_router client_config env) initial_state = SEDS_ERR /\
   r (g_router s1) = None /\ created (g_router s1) = 0 /\
   g_can_side_id s1 = -1 /\ router_created s1 = false) /\
  trace (state_after (init_telemetry_router client_config env) s1)
    = [Call_printf; Call_seds_router_new;
       Call_printf; Call_seds_router_new; Call_can_bus_subscribe_rx].
Proof.
  intros env s1. split.
  - apply (C8_init_telemetry_router_outcomes client_config env initial_state);
      reflexivity.
  - vm_compute. reflexivity.
Defined.

(** C8 as stated fails: when attaching the CAN side fails
    ([seds_router_add_side_serialized] answers -1),
    [init_telemetry_router] still returns [SEDS_OK] and marks the router
    created. *)
Lemma C8_counterexample :
  let env := constant_env 0 HAL_OK (Some 1) (-1) SEDS_OK in
  let res := result_of (init_telemetry_router client_config env) initial_state in
  let s' := state_after (init_telemetry_router client_config env) initial_state in
  add_side_answer env initial_state = -1 /\
  In (Call_seds_router_add_side_serialized 1) (trace s') /\
  res = SEDS_OK /\ r (g_router s') = Some 1 /\ created (g_router s') = 1 /\
  ~ (res <> SEDS_OK /\ r (g_router s') = None /\ created (g_router s') = 0).
Proof.
  cbv zeta. repeat split; try (vm_compute; reflexivity).
  - vm_compute. auto.
  - intros (H & _). apply H. vm_compute. reflexivity.
Qed.

(** ** C9: logging with bad arguments *)

#[local] Instance no_enqueue_preorder : PreOrder no_enqueue.
Proof.
  split.
  - intros s. exists []. split; reflexivity.
  - intros a b c (m1 & E1 & F1) (m2 & E2 & F2).
    exists (m2 ++ m1). split.
    + rewrite E2, E1. apply app_assoc.
    + rewrite forallb_app, F1, F2. reflexivity.
Qed.

Ltac no_enqueue_leaf :=
  first [ exists []; split; reflexivity
        | eexists [_]; split; reflexivity ].

Lemma with_router_no_enqueue cfg env {A : Type} (fail : A) (rest : M A) :
  respects no_enqueue rest ->
  respects no_enqueue (with_router cfg env fail rest).
Proof.
  intros Hrest. respects_all no_enqueue_leaf; exact Hrest.
Qed.

Lemma log_telemetry_bad cfg env queue dt data count size :
  bad_log_arguments data count size ->
  log_telemetry cfg env queue dt data count size =
    if TELEMETRY_ENABLED cfg
    then with_router cfg env SEDS_ERR (ret SEDS_BAD_ARG)
    else bind (print_data_no_telem data (wrap32 (count * size)))
              (fun _ => ret SEDS_OK).
Proof.
  intros Hbad. unfold log_telemetry.
  destruct data as [bytes|]; [|reflexivity].
  assert (E : (count =? 0) || (size =? 0) = true).
  { destruct Hbad as [H|[H|H]]; [discriminate| |]; subst.
    - reflexivity.
    - apply orb_true_r. }
  rewrite E. reflexivity.
Qed.

(** C9, as the code has it.  A call of [log_telemetry_synchronous] or
    [log_telemetry_asynchronous] with a null data pointer, a zero element
    count or a zero element size never calls [seds_router_log_typed_ex].
    With telemetry enabled it returns [SEDS_BAD_ARG] when the router exists
    or its lazy creation succeeds, and [SEDS_ERR] when the lazy creation
    fails: the router is looked for before the arguments are.  With
    telemetry disabled it returns [SEDS_OK] and changes nothing. *)
Theorem C9_log_telemetry_bad_arguments :
  forall (cfg : Config) (env : Env)
         (log : SedsDataType -> buffer -> Z -> Z -> M SedsResult)
         (dt : SedsDataType) (data : buffer) (count size : Z) (s : State),
    log = log_telemetry_synchronous cfg env \/
    log = log_telemetry_asynchronous cfg env ->
    bad_log_arguments data count size ->
    let res := result_of (log dt data count size) s in
    let s' := state_after (log dt data count size) s in
    no_enqueue s s' /\
    (TELEMETRY_ENABLED cfg = true -> router_available cfg env s = true ->
       res = SEDS_BAD_ARG) /\
    (TELEMETRY_ENABLED cfg = true -> router_available cfg env s = false ->
       res = SEDS_ERR) /\
    (TELEMETRY_ENABLED cfg = false -> res = SEDS_OK /\ s' = s).
Proof.
  intros cfg env log dt data count size s Hlog Hbad. cbv zeta.
  assert (E : exists queue, log = log_telemetry cfg env queue).
  { destruct Hlog as [->| ->]; [exists 0 | exists 1]; reflexivity. }
  destruct E as (queue & ->).
  rewrite (log_telemetry_bad cfg env queue dt data count size Hbad).
  split; [|split; [|split]].
  - destruct (TELEMETRY_ENABLED cfg).
    + apply with_router_no_enqueue. apply respects_ret. exact _.
    + exists []. split; reflexivity.
  - intros -> Hav. unfold router_available in Hav.
    unfold result_of, with_router, bind, gets, ret in *. cbn [fst snd] in *.
    destruct (r (g_router s)); [reflexivity|].
    destruct (init_telemetry_router cfg env s) as [[| | | |code] s1];
      cbn [fst] in *; try discriminate; reflexivity.
  - intros -> Hav. unfold router_available in Hav.
    unfold result_of, with_router, bind, gets, ret in *. cbn [fst snd] in *.
    destruct (r (g_router s)); [discriminate|].
    destruct (init_telemetry_router cfg env s) as [[| | | |code] s1];
      cbn [fst] in *; try discriminate; reflexivity.
  - intros ->. split; reflexivity.
Qed.

(** The theorem on a client whose router is created by the call itself:
    a null data pointer is answered [SEDS_BAD_ARG]. *)
Lemma C9_log_telemetry_witness :
  let env := constant_env 0 HAL_OK (Some 1) 0 SEDS_OK in
  result_of
    (log_telemetry_synchronous client_config env SEDS_DT_MESSAGE_DATA None 4 4)
    initial_state = SEDS_BAD_ARG /\
  no_enqueue initial_state
    (state_after
       (log_telemetry_asynchronous client_config env SEDS_DT_MESSAGE_DATA
          (Some [1; 2; 3; 4]) 0 4)
       initial_state).
Proof.
  intros env. split.
  - apply (C9_log_telemetry_bad_arguments client_config env
             (log_telemetry_synchronous client_config env)
             SEDS_DT_MESSAGE_DATA None 4 4 initial_state).
    + left. reflexivity.
    + left. reflexivity.
    + reflexivity.
    + reflexivity.
  - apply (C9_log_telemetry_bad_arguments client_config env
             (log_telemetry_asynchronous client_config env)
             SEDS_DT_MESSAGE_DATA (Some [1; 2; 3; 4]) 0 4 initial_state).
    + right. reflexivity.
    + right. left. reflexivity.
Defined.

(** C9 as stated fails: on a node whose router cannot be created, a call
    with a null data pointer returns [SEDS_ERR], not [SEDS_BAD_ARG]. *)
Lemma C9_counterexample :
  let env := constant_env 0 HAL_OK None 0 SEDS_OK in
  result_of
    (log_telemetry_synchronous client_config env SEDS_DT_MESSAGE_DATA None 1 1)
    initial_state = SEDS_ERR /\
  result_of
    (log_telemetry_synchronous client_config env SEDS_DT_MESSAGE_DATA None 1 1)
    initial_state <> SEDS_BAD_ARG.
Proof.
  cbv zeta. split.
  - vm_compute. reflexivity.
  - vm_compute. discriminate.
Qed.

(** ** C10: the sequence counter of [telemetry_timesync_request] *)

(** C10.  On a client with telemetry enabled and the router present,
    [telemetry_timesync_request] reads the clock, hands the router a
    REQUEST carrying the current [g_timesync_seq] and returns whatever the
    router answers; whatever that answer is, an error included, the counter
    afterwards is the counter before plus one (modulo [2^64], so plus one
    exactly below the last 64-bit value). *)
Theorem C10_sequence_advances_on_failure :
  forall (cfg : Config) (env : Env) (s : State) (rt : SedsRouter),
    TELEMETRY_ENABLED cfg = true ->
    TELEMETRY_TIME_MASTER cfg = false ->
    r (g_router s) = Some rt ->
    let res := result_of (telemetry_timesync_request cfg env) s in
    let s' := state_after (telemetry_timesync_request cfg env) s in
    let t1 := result_of (tx_raw_now_ms cfg env) s in
    g_timesync_seq s' = wrap64 (g_timesync_seq s + 1) /\
    (0 <= g_timesync_seq s < 2 ^ 64 - 1 ->
       g_timesync_seq s' = g_timesync_seq s + 1) /\
    res = seds_result env (S (length (trace s))) /\
    (res <> SEDS_OK -> g_timesync_seq s' = wrap64 (g_timesync_seq s + 1)) /\
    trace s' =
      Call_seds_router_log_ts (Some rt) SEDS_DT_TIME_SYNC_REQUEST t1
        [g_timesync_seq s; t1]
      :: Call_tx_time_get :: trace s /\
    g_router s' = g_router s.
Proof.
  intros cfg env s rt Hen Hm Hr. cbv zeta.
  unfold result_of, state_after, telemetry_timesync_request, with_router.
  rewrite Hen, Hm. cbn [negb].
  cbv beta iota delta [bind gets modify ret call].
  rewrite Hr. rewrite tx_raw_now_ms_run. cbv zeta.
  cbn [fst snd g_timesync_seq set_timesync_seq set_statics set_trace trace
       g_router length r].
  rewrite Hr.
  repeat split.
  intros Hb. apply wrap64_small. lia.
Qed.

(** The theorem on a client whose router refuses every enqueue: two
    requests both return [SEDS_ERR], carry the sequence numbers 1 and 2,
    and leave the counter at 3. *)
Lemma C10_sequence_witness :
  let env := constant_env 40 HAL_OK (Some 1) 0 SEDS_ERR in
  let s0 := state_after (init_telemetry_router client_config env) initial_state in
  let s1 := state_after (telemetry_timesync_request client_config env) s0 in
  let s2 := state_after (telemetry_timesync_request client_config env) s1 in
  result_of (telemetry_timesync_request client_config env) s0 = SEDS_ERR /\
  result_of (telemetry_timesync_request client_config env) s1 = SEDS_ERR /\
  g_timesync_seq s0 = 1 /\ g_timesync_seq s1 = 2 /\ g_timesync_seq s2 = 3 /\
  g_timesync_seq s1 = wrap64 (g_timesync_seq s0 + 1).
Proof.
  intros env s0 s1 s2.
  do 5 (split; [vm_compute; reflexivity|]).
  destruct (C10_sequence_advances_on_failure client_config env s0 1)
    as (H & _); [reflexivity | reflexivity | reflexivity | exact H].
Defined.

(** * Further properties of the core *)

(** ** The clock extender measures true ticks *)

Module ClockExact.
Import Clock ClockFacts.

#[local] Abbreviation tracks := clock_tracks.

Lemma tx_raw_now_ms_tracks tps t t' c :
  0 < tps < 2 ^ 64 ->
  0 <= t -> t <= t' < t + 2 ^ 32 -> t' * 1000 < 2 ^ 64 ->
  tracks t c ->
  fst (tx_raw_now_ms tps (wrap32 t') c) = t' * 1000 / tps /\
  tracks t' (snd (tx_raw_now_ms tps (wrap32 t') c)).
Proof.
  intros Htps Ht Hstep Hfit (Hl & Hh).
  unfold tx_raw_now_ms, clock_tracks. cbn [fst snd last_ticks32 high].
  assert (Hw : wrap32 (wrap32 t') = t' mod 2 ^ 32).
  { unfold wrap32. apply Z.mod_mod. lia. }
  rewrite Hw, Hl, Hh, shiftl_1_32.
  pose proof (Z.div_mod t (2 ^ 32) ltac:(lia)) as Dt.
  pose proof (Z.div_mod t' (2 ^ 32) ltac:(lia)) as Dt'.
  pose proof (Z.mod_pos_bound t (2 ^ 32) ltac:(lia)) as Mt.
  pose proof (Z.mod_pos_bound t' (2 ^ 32) ltac:(lia)) as Mt'.
  assert (Hq : 0 <= t / 2 ^ 32) by (apply Z.div_pos; lia).
  set (q := t / 2 ^ 32) in *. set (q' := t' / 2 ^ 32) in *.
  set (l := t mod 2 ^ 32) in *. set (l' := t' mod 2 ^ 32) in *.
  assert (Hhigh :
    (if l' <? l then wrap64 (q * 2 ^ 32 + 2 ^ 32) else q * 2 ^ 32) = q' * 2 ^ 32).
  { destruct (Z.ltb_spec l' l).
    - rewrite wrap64_small by lia. lia.
    - lia. }
  rewrite Hhigh, lor_high_low by lia.
  unfold to_u64. rewrite (wrap64_small tps) by lia.
  replace (q' * 2 ^ 32 + l') with t' by lia.
  rewrite wrap64_small by lia. auto.
Qed.

Lemma outputs_track tps :
  0 < tps < 2 ^ 64 ->
  forall ticks t c,
    0 <= t -> tracks t c ->
    ticks_advance t ticks ->
    Forall (fun x => x * 1000 < 2 ^ 64) ticks ->
    outputs tps (map wrap32 ticks) c = map (fun x => x * 1000 / tps) ticks.
Proof.
  intros Htps. induction ticks as [|t' rest IH]; intros t c Ht Hc Hadv Hfit.
  - reflexivity.
  - destruct Hadv as (Hstep & Hadv). inversion Hfit as [|? ? Hfit1 Hfit2]; subst.
    destruct (tx_raw_now_ms_tracks tps t t' c Htps Ht Hstep Hfit1 Hc) as (Hout & Hc').
    cbn [map outputs].
    destruct (tx_raw_now_ms tps (wrap32 t') c) as [ms c'].
    cbn [fst snd] in Hout, Hc'. subst ms. f_equal.
    apply (IH t'); [lia | exact Hc' | exact Hadv | exact Hfit2].
Qed.

End ClockExact.

(** When the hardware counter is read at least once per period (true tick
    counts that never go back and advance by less than [2^32] between
    reads, the first read within the first period), every call of
    [tx_raw_now_ms] returns the true tick count converted to milliseconds,
    [t * 1000 / TX_TIMER_TICKS_PER_SECOND], as long as [t * 1000] fits in
    64 bits. *)
Theorem tx_raw_now_ms_measures_true_ticks :
  forall (tps : Z) (ticks : list Z),
    0 < tps < 2 ^ 64 ->
    ticks_advance 0 ticks ->
    Forall (fun t => t * 1000 < 2 ^ 64) ticks ->
    Clock.outputs tps (map wrap32 ticks) Clock.init
    = map (fun t => t * 1000 / tps) ticks.
Proof.
  intros tps ticks Htps Hadv Hfit.
  apply (ClockExact.outputs_track tps Htps ticks 0 Clock.init); auto.
  - lia.
  - split; reflexivity.
Qed.

(** The theorem at 100 ticks per second, across two wraps of the 32-bit
    counter. *)
Lemma tx_raw_now_ms_measures_true_ticks_witness :
  Clock.outputs 100 (map wrap32 [250; 4294967000; 4294967396; 8589934691]) Clock.init
  = [2500; 42949670000; 42949673960; 85899346910].
Proof.
  apply (tx_raw_now_ms_measures_true_ticks 100
           [250; 4294967000; 4294967396; 8589934691]).
  - lia.
  - unfold ticks_advance. lia.
  - repeat constructor.
Defined.

(** ** Adjusted and absolute time *)


Lemma telemetry_now_ms_result cfg env s :
  result_of (telemetry_now_ms cfg env) s =
    let t := to_s64 (to_s64 (result_of (tx_raw_now_ms cfg env) s)
                     + g_master_offset_ms s) in
    to_u64 (if t <? 0 then 0 else t).
Proof. reflexivity. Qed.

Lemma telemetry_now_ms_range cfg env s :
  0 <= result_of (telemetry_now_ms cfg env) s < 2 ^ 63.
Proof.
  rewrite telemetry_now_ms_result. cbv zeta.
  set (t := to_s64 _). pose proof (to_s64_range
    (to_s64 (result_of (tx_raw_now_ms cfg env) s) + g_master_offset_ms s)) as Hr.
  fold t in Hr. unfold to_u64.
  destruct (Z.ltb_spec t 0); rewrite wrap64_small; lia.
Qed.

(** [telemetry_now_ms] reads the clock once and writes nothing else.  It
    returns [max 0 t], where [t] is the [int64_t] sum of the raw time
    (converted to [int64_t]) and [g_master_offset_ms], so its value is
    always below [2^63]; when the raw time is below [2^63] and the raw time
    plus the offset fits in [int64_t], that is the raw time plus the
    offset, or 0 when this sum is negative. *)
Theorem telemetry_now_ms_clamped :
  forall (cfg : Config) (env : Env) (s : State),
    let raw := result_of (tx_raw_now_ms cfg env) s in
    let now := result_of (telemetry_now_ms cfg env) s in
    0 <= now < 2 ^ 63 /\
    state_after (telemetry_now_ms cfg env) s = state_after (tx_raw_now_ms cfg env) s /\
    now = Z.max 0 (to_s64 (to_s64 raw + g_master_offset_ms s)) /\
    (0 <= raw < 2 ^ 63 -> is_s64 (raw + g_master_offset_ms s) ->
       now = Z.max 0 (raw + g_master_offset_ms s)).
Proof.
  intros cfg env s. cbv zeta. split; [apply telemetry_now_ms_range|].
  split; [reflexivity|].
  split.
  { rewrite telemetry_now_ms_result. cbv zeta.
    pose proof (to_s64_range
      (to_s64 (result_of (tx_raw_now_ms cfg env) s) + g_master_offset_ms s)) as Hr.
    unfold to_u64.
    destruct (Z.ltb_spec
      (to_s64 (to_s64 (result_of (tx_raw_now_ms cfg env) s) + g_master_offset_ms s)) 0);
      rewrite wrap64_small; lia. }
  intros Hraw Hsum. unfold is_s64 in Hsum.
  rewrite telemetry_now_ms_result. cbv zeta.
  rewrite (to_s64_small (result_of _ s)) by lia.
  rewrite to_s64_small by lia.
  unfold to_u64.
  destruct (Z.ltb_spec (result_of (tx_raw_now_ms cfg env) s + g_master_offset_ms s) 0);
    rewrite wrap64_small; lia.
Qed.

(** A client 40 ms ahead of the master (offset -40) whose clock reads
    25 ms reports 0, and one whose clock reads 1025 ms reports 985. *)
Lemma telemetry_now_ms_clamped_witness :
  result_of (telemetry_now_ms client_config (constant_env 25 HAL_OK None 0 SEDS_OK))
    (set_master_offset_ms (-40) initial_state) = Z.max 0 (25 + -40) /\
  result_of (telemetry_now_ms client_config (constant_env 1025 HAL_OK None 0 SEDS_OK))
    (set_master_offset_ms (-40) initial_state) = 985.
Proof.
  destruct (telemetry_now_ms_clamped client_config
              (constant_env 25 HAL_OK None 0 SEDS_OK)
              (set_master_offset_ms (-40) initial_state)) as (_ & _ & _ & H).
  split.
  - apply H.
    + vm_compute. split; [discriminate | reflexivity].
    + vm_compute. split; [discriminate | reflexivity].
  - vm_compute. reflexivity.
Defined.



(** Before the unix base is valid, [telemetry_unix_ms] and
    [telemetry_unix_s] return 0 without reading the clock: the state is
    unchanged. *)
Theorem telemetry_unix_ms_invalid :
  forall (cfg : Config) (env : Env) (s : State),
    g_unix_valid s = 0 ->
    telemetry_unix_ms cfg env s = (0, s) /\
    telemetry_unix_s cfg env s = (0, s).
Proof.
  intros cfg env s Hv.
  assert (E : telemetry_unix_ms cfg env s = (0, s)).
  { unfold telemetry_unix_ms, bind, gets. rewrite Hv. reflexivity. }
  split; [exact E|].
  unfold telemetry_unix_s, bind. rewrite E. reflexivity.
Qed.

Lemma telemetry_unix_ms_invalid_witness :
  telemetry_unix_ms client_config (constant_env 25 HAL_OK None 0 SEDS_OK) initial_state
  = (0, initial_state).
Proof.
  apply (telemetry_unix_ms_invalid client_config
           (constant_env 25 HAL_OK None 0 SEDS_OK) initial_state).
  reflexivity.
Defined.






(** On a client build [telemetry_set_unix_time_ms] does nothing. *)
Theorem client_set_unix_time_is_ignored :
  forall (cfg : Config) (env : Env) (s : State) (unix_ms : Z),
    TELEMETRY_TIME_MASTER cfg = false ->
    telemetry_set_unix_time_ms cfg env unix_ms s = (tt, s).
Proof.
  intros cfg env s u Hm. unfold telemetry_set_unix_time_ms. rewrite Hm. reflexivity.
Qed.

Lemma client_set_unix_time_is_ignored_witness :
  telemetry_set_unix_time_ms client_config
    (constant_env 5000 HAL_OK None 0 SEDS_OK) 1700000000000 initial_state
  = (tt, initial_state).
Proof.
  apply (client_set_unix_time_is_ignored client_config
           (constant_env 5000 HAL_OK None 0 SEDS_OK) initial_state 1700000000000).
  reflexivity.
Defined.

(** ** The estimator on a known path *)

Lemma compute_offset_delay_exact t1 t2 t3 t4 :
  0 <= t1 < 2 ^ 62 -> 0 <= t2 < 2 ^ 62 -> 0 <= t3 < 2 ^ 62 -> 0 <= t4 < 2 ^ 62 ->
  compute_offset_delay t1 t2 t3 t4
  = (Z.quot ((t2 - t1) + (t3 - t4)) 2, Z.max 0 ((t4 - t1) - (t3 - t2))).
Proof.
  intros H1 H2 H3 H4. unfold compute_offset_delay.
  rewrite !to_s64_wrap64.
  rewrite (to_s64_small (t2 - t1)), (to_s64_small (t3 - t4)),
    (to_s64_small (t4 - t1)), (to_s64_small (t3 - t2)) by lia.
  rewrite !to_s64_small by lia.
  f_equal. unfold to_u64.
  destruct (Z.ltb_spec (t4 - t1 - (t3 - t2)) 0); [lia|].
  rewrite wrap64_small; lia.
Qed.

(** An exchange with true offset [O] (master minus client), forward delay
    [d1], processing time [p] on the master and return delay [d2]:
    [compute_offset_delay] returns the round-trip delay [d1 + d2] and the
    offset [O] plus half the asymmetry [d1 - d2], truncated toward zero; on
    a symmetric path it returns [O] exactly. *)
Theorem estimator_on_known_path :
  forall t1 O d1 d2 p : Z,
    let t2 := t1 + O + d1 in
    let t3 := t2 + p in
    let t4 := t3 - O + d2 in
    0 <= d1 + d2 ->
    0 <= t1 < 2 ^ 62 -> 0 <= t2 < 2 ^ 62 -> 0 <= t3 < 2 ^ 62 -> 0 <= t4 < 2 ^ 62 ->
    compute_offset_delay t1 t2 t3 t4 = (Z.quot (2 * O + (d1 - d2)) 2, d1 + d2) /\
    (d1 = d2 -> compute_offset_delay t1 t2 t3 t4 = (O, 2 * d1)).
Proof.
  intros t1 O d1 d2 p t2 t3 t4 Hd H1 H2 H3 H4.
  rewrite (compute_offset_delay_exact t1 t2 t3 t4 H1 H2 H3 H4).
  subst t2 t3 t4.
  replace (t1 + O + d1 - t1 + (t1 + O + d1 + p - (t1 + O + d1 + p - O + d2)))
    with (2 * O + (d1 - d2)) by lia.
  replace (t1 + O + d1 + p - O + d2 - t1 - (t1 + O + d1 + p - (t1 + O + d1)))
    with (d1 + d2) by lia.
  rewrite Z.max_r by lia.
  split; [reflexivity|].
  intros ->. f_equal; [|lia].
  replace (2 * O + (d2 - d2)) with (O * 2) by lia.
  apply Z.quot_mul. lia.
Qed.

(** A client 250 ms behind the master, 7 ms each way, 2 ms on the master;
    and the same with 7 ms out and 4 ms back. *)
Lemma estimator_on_known_path_witness :
  compute_offset_delay 1000 1257 1259 1016 = (250, 14) /\
  compute_offset_delay 1000 1257 1259 1013 = (Z.quot (2 * 250 + (7 - 4)) 2, 7 + 4).
Proof.
  split.
  - apply (estimator_on_known_path 1000 250 7 7 2); lia.
  - apply (estimator_on_known_path 1000 250 7 4 2); lia.
Defined.

(** ** The size of one correction *)

Lemma abs_quot c d : 1 <= d -> Z.abs (Z.quot c d) = Z.abs c / d.
Proof.
  intros Hd. rewrite <- Z.quot_abs by lia.
  rewrite (Z.abs_eq d) by lia.
  apply Z.quot_div_nonneg; lia.
Qed.

(** The step that one call of [client_apply_offset_ms] adds to
    [g_master_offset_ms] (0 for a candidate that is zero or beyond
    [NET_TIMESYNC_MAX_STEP_MS], the smoothed step otherwise) is at most
    [NET_TIMESYNC_MAX_STEP_MS / NET_TIMESYNC_SMOOTH_DIV], or 1 for the unit
    step, in magnitude; whenever the old offset plus that step fits in
    [int64_t], the new offset is exactly their sum, so the offset moves by
    at most that bound. *)
Theorem client_apply_offset_ms_step_bound :
  forall (cfg : Config) (candidate : Z) (s : State),
    config_ok cfg ->
    let bound :=
      Z.max 1 (NET_TIMESYNC_MAX_STEP_MS cfg / NET_TIMESYNC_SMOOTH_DIV cfg) in
    let step :=
      if Z.abs candidate <=? NET_TIMESYNC_MAX_STEP_MS cfg
      then smoothed_step cfg candidate else 0 in
    let g' := g_master_offset_ms
                (state_after (client_apply_offset_ms cfg candidate) s) in
    Z.abs step <= bound /\
    (candidate = 0 -> step = 0) /\
    (is_s64 (g_master_offset_ms s + step) ->
       g' = g_master_offset_ms s + step /\
       Z.abs (g' - g_master_offset_ms s) <= bound).
Proof.
  intros cfg c s Hcfg. cbv zeta.
  pose proof Hcfg as ((Hd1 & Hd2) & (Hm1 & Hm2)).
  assert (Hstep : Z.abs (smoothed_step cfg c) <= Z.abs c / NET_TIMESYNC_SMOOTH_DIV cfg
                  \/ Z.abs (smoothed_step cfg c) <= 1).
  { rewrite (smoothed_step_cases cfg Hcfg c).
    pose proof (abs_quot c (NET_TIMESYNC_SMOOTH_DIV cfg) ltac:(lia)) as Hq.
    destruct (Z.eqb_spec (Z.quot c (NET_TIMESYNC_SMOOTH_DIV cfg)) 0); lia. }
  assert (Hzero : smoothed_step cfg 0 = 0).
  { rewrite (smoothed_step_cases cfg Hcfg 0). rewrite Z.quot_0_l by lia.
    reflexivity. }
  unfold state_after.
  destruct (Z.leb_spec (Z.abs c) (NET_TIMESYNC_MAX_STEP_MS cfg)) as [Hin|Hout].
  - rewrite client_apply_offset_ms_accepts by exact Hin.
    cbn [snd g_master_offset_ms set_master_offset_ms].
    assert (Hb : Z.abs (smoothed_step cfg c)
                 <= Z.max 1 (NET_TIMESYNC_MAX_STEP_MS cfg / NET_TIMESYNC_SMOOTH_DIV cfg)).
    { assert (Z.abs c / NET_TIMESYNC_SMOOTH_DIV cfg
              <= NET_TIMESYNC_MAX_STEP_MS cfg / NET_TIMESYNC_SMOOTH_DIV cfg)
        by (apply Z.div_le_mono; lia).
      lia. }
    split; [exact Hb|]. split; [intros ->; exact Hzero|].
    intros Hfit. rewrite to_s64_small by exact Hfit. split; lia.
  - rewrite client_apply_offset_ms_rejects by lia. cbn [snd].
    split; [lia|]. split; [reflexivity|]. intros _. split; lia.
Qed.

(** On the default build no call moves the offset by more than 7500 ms:
    the candidate 30000 moves it by exactly that, also from an offset of
    [2^62 + 5]. *)
Lemma client_apply_offset_ms_step_bound_witness :
  Z.abs (g_master_offset_ms
           (state_after (client_apply_offset_ms client_config 30000)
              (set_master_offset_ms (2 ^ 62 + 5) initial_state))
         - (2 ^ 62 + 5))
  <= Z.max 1 (30000 / 4) /\
  g_master_offset_ms
    (state_after (client_apply_offset_ms client_config 30000) initial_state) = 7500.
Proof.
  destruct (client_apply_offset_ms_step_bound client_config 30000
              (set_master_offset_ms (2 ^ 62 + 5) initial_state))
    as (_ & _ & H).
  - unfold config_ok. simpl. lia.
  - split.
    + apply H. vm_compute. split; [discriminate | reflexivity].
    + vm_compute. reflexivity.
Defined.

(** ** The time-sync endpoint *)

(** [on_timesync] answers [SEDS_ERR] to a null packet or a null payload and
    [SEDS_OK] to every message that is too short, meant for the other role
    or of another data type; in all these cases it leaves every static
    unchanged and calls no collaborator. *)
Theorem on_timesync_rejects_without_effect :
  forall (cfg : Config) (env : Env) (s : State),
    on_timesync cfg env None s = (SEDS_ERR, s) /\
    (forall p : SedsPacketView,
       payload p = None -> on_timesync cfg env (Some p) s = (SEDS_ERR, s)) /\
    (forall (p : SedsPacketView) (bytes : list Z),
       payload p = Some bytes -> dropped_silently cfg p = true ->
       on_timesync cfg env (Some p) s = (SEDS_OK, s)).
Proof.
  intros cfg env s. split; [reflexivity|]. split.
  - intros p Hp. unfold on_timesync. rewrite Hp. reflexivity.
  - intros p bytes Hp Hd. unfold on_timesync. rewrite Hp.
    unfold dropped_silently in Hd.
    destruct (ty p); cbn [SedsDataType_eqb andb] in *.
    + (* REQUEST *)
      destruct (TELEMETRY_TIME_MASTER cfg); cbn [negb orb] in Hd.
      * apply Z.ltb_lt in Hd.
        destruct (Z.leb_spec 16 (payload_len p)); [lia|]. reflexivity.
      * destruct (16 <=? payload_len p); reflexivity.
    + (* RESPONSE *)
      apply Z.ltb_lt in Hd.
      destruct (Z.leb_spec 32 (payload_len p)); [lia|]. reflexivity.
    + (* ANNOUNCE *)
      destruct (TELEMETRY_TIME_MASTER cfg); cbn [negb orb] in Hd.
      * destruct (16 <=? payload_len p); reflexivity.
      * apply Z.ltb_lt in Hd.
        destruct (Z.leb_spec 16 (payload_len p)); [lia|]. reflexivity.
    + reflexivity.
    + reflexivity.
    + reflexivity.
Qed.

(** A well-formed REQUEST on a client, a 15-byte ANNOUNCE and a packet
    without payload. *)
Lemma on_timesync_rejects_without_effect_witness :
  let env := constant_env 1025 HAL_OK (Some 1) 0 SEDS_OK in
  on_timesync client_config env
    (Some (packet_of SEDS_DT_TIME_SYNC_REQUEST [7; 500])) initial_state
  = (SEDS_OK, initial_state) /\
  on_timesync client_config env
    (Some {| ty := SEDS_DT_TIME_SYNC_ANNOUNCE;
             payload := Some (firstn 15 (flat_map store_u64 [0; 5]));
             payload_len := 15 |}) initial_state
  = (SEDS_OK, initial_state) /\
  on_timesync client_config env
    (Some {| ty := SEDS_DT_TIME_SYNC_RESPONSE; payload := None; payload_len := 32 |})
    initial_state
  = (SEDS_ERR, initial_state).
Proof.
  intros env.
  destruct (on_timesync_rejects_without_effect client_config env initial_state)
    as (_ & Hnull & Hdrop).
  split; [|split].
  - apply (Hdrop (packet_of SEDS_DT_TIME_SYNC_REQUEST [7; 500])
             (flat_map store_u64 [7; 500])); reflexivity.
  - apply (Hdrop {| ty := SEDS_DT_TIME_SYNC_ANNOUNCE;
                    payload := Some (firstn 15 (flat_map store_u64 [0; 5]));
                    payload_len := 15 |}
             (firstn 15 (flat_map store_u64 [0; 5]))); reflexivity.
  - apply Hnull. reflexivity.
Defined.

Lemma on_timesync_client_response_run cfg env p bytes s :
  TELEMETRY_TIME_MASTER cfg = false ->
  ty p = SEDS_DT_TIME_SYNC_RESPONSE ->
  payload p = Some bytes ->
  32 <= payload_len p ->
  on_timesync cfg env (Some p) s =
    let est := compute_offset_delay (load_u64 bytes 8) (load_u64 bytes 16)
                 (load_u64 bytes 24) (result_of (tx_raw_now_ms cfg env) s) in
    (SEDS_OK,
     set_last_delay_ms (snd est)
       (state_after (client_apply_offset_ms cfg (fst est))
          (state_after (tx_raw_now_ms cfg env) s))).
Proof.
  intros Hm Hty Hpay Hlen. apply Z.leb_le in Hlen.
  unfold on_timesync. rewrite Hpay, Hty, Hlen, Hm.
  cbn [SedsDataType_eqb andb negb].
  unfold bind, telemetry_last_delay_ms_set, modify, ret, result_of, state_after.
  destruct (tx_raw_now_ms cfg env s) as [t4 s1]. cbn [fst snd].
  destruct (client_apply_offset_ms cfg _ s1) as [u s2]. reflexivity.
Qed.

(** On a client, a RESPONSE of at least 32 bytes makes [on_timesync] read
    the clock once for t4, run the estimator on t1, t2, t3 of the payload
    and t4, apply the estimated offset under the step policy (discarded
    beyond the bound, smoothed otherwise) and record the estimated delay,
    whether or not the offset was applied; it returns [SEDS_OK], does not
    look at the sequence number, does not touch the unix base, the router
    state or the sequence counter, and calls no router function. *)
Theorem client_response_updates_offset_and_delay :
  forall (cfg : Config) (env : Env) (p : SedsPacketView) (bytes : list Z)
         (s : State),
    TELEMETRY_TIME_MASTER cfg = false ->
    ty p = SEDS_DT_TIME_SYNC_RESPONSE ->
    payload p = Some bytes ->
    32 <= payload_len p ->
    let t4 := result_of (tx_raw_now_ms cfg env) s in
    let est := compute_offset_delay (load_u64 bytes 8) (load_u64 bytes 16)
                 (load_u64 bytes 24) t4 in
    let s' := state_after (on_timesync cfg env (Some p)) s in
    result_of (on_timesync cfg env (Some p)) s = SEDS_OK /\
    g_last_delay_ms s' = snd est /\
    (NET_TIMESYNC_MAX_STEP_MS cfg < Z.abs (fst est) ->
       g_master_offset_ms s' = g_master_offset_ms s) /\
    (Z.abs (fst est) <= NET_TIMESYNC_MAX_STEP_MS cfg ->
       g_master_offset_ms s'
       = to_s64 (g_master_offset_ms s + smoothed_step cfg (fst est))) /\
    g_unix_base_ms s' = g_unix_base_ms s /\
    g_unix_valid s' = g_unix_valid s /\
    g_router s' = g_router s /\
    g_timesync_seq s' = g_timesync_seq s /\
    trace s' = Call_tx_time_get :: trace s.
Proof.
  intros cfg env p bytes s Hm Hty Hpay Hlen. cbv zeta.
  unfold result_of at 1. unfold state_after at 1 2 3 4 5 6 7 8.
  rewrite (on_timesync_client_response_run cfg env p bytes s Hm Hty Hpay Hlen).
  cbv zeta. cbn [fst snd].
  set (est := compute_offset_delay _ _ _ _).
  split; [reflexivity|]. split; [reflexivity|].
  split; [|split].
  - intros Hout. unfold state_after.
    rewrite client_apply_offset_ms_rejects by exact Hout. reflexivity.
  - intros Hin. unfold state_after at 1.
    rewrite client_apply_offset_ms_accepts by exact Hin. reflexivity.
  - destruct (Z.le_gt_cases (Z.abs (fst est)) (NET_TIMESYNC_MAX_STEP_MS cfg));
      unfold state_after at 1 3 5 7 9;
      [ rewrite client_apply_offset_ms_accepts by assumption
      | rewrite client_apply_offset_ms_rejects by lia ];
      repeat split.
Qed.

(** The exchange t1 = 1000, t2 = 1010, t3 = 1012 received by a client
    whose clock reads 1025 ms: offset -1 by the unit step, delay 23. *)
Lemma client_response_updates_offset_and_delay_witness :
  let env := constant_env 1025 HAL_OK (Some 1) 0 SEDS_OK in
  let p := packet_of SEDS_DT_TIME_SYNC_RESPONSE [1; 1000; 1010; 1012] in
  let s' := state_after (on_timesync client_config env (Some p)) initial_state in
  result_of (on_timesync client_config env (Some p)) initial_state = SEDS_OK /\
  g_master_offset_ms s' = -1 /\ g_last_delay_ms s' = 23.
Proof.
  intros env p s'. split; [|split].
  - apply (client_response_updates_offset_and_delay client_config env p
             (flat_map store_u64 [1; 1000; 1010; 1012]) initial_state);
      [reflexivity | reflexivity | reflexivity | vm_compute; discriminate].
  - vm_compute. reflexivity.
  - vm_compute. reflexivity.
Defined.

Lemma on_timesync_master_request_run cfg env p bytes s :
  TELEMETRY_TIME_MASTER cfg = true ->
  ty p = SEDS_DT_TIME_SYNC_REQUEST ->
  payload p = Some bytes ->
  16 <= payload_len p ->
  on_timesync cfg env (Some p) s =
    let s1 := state_after (tx_raw_now_ms cfg env) s in
    let s2 := state_after (tx_raw_now_ms cfg env) s1 in
    let t2 := result_of (tx_raw_now_ms cfg env) s in
    let t3 := result_of (tx_raw_now_ms cfg env) s1 in
    (seds_result env (length (trace s2)),
     set_trace
       (Call_seds_router_log_ts (r (g_router s2)) SEDS_DT_TIME_SYNC_RESPONSE t3
          [load_u64 bytes 0; load_u64 bytes 8; t2; t3] :: trace s2) s2).
Proof.
  intros Hm Hty Hpay Hlen. apply Z.leb_le in Hlen.
  unfold on_timesync. rewrite Hpay, Hty, Hlen, Hm.
  cbn [SedsDataType_eqb andb negb].
  unfold bind, gets, call, result_of, state_after.
  destruct (tx_raw_now_ms cfg env s) as [t2 s1]. cbn [fst snd].
  destruct (tx_raw_now_ms cfg env s1) as [t3 s2]. reflexivity.
Qed.

(** Two successive clock reads do not go back while the extender is
    below its overflow bound. *)
Lemma tx_raw_now_ms_twice cfg env s w :
  0 < TX_TIMER_TICKS_PER_SECOND cfg < 2 ^ 64 ->
  Clock.wf w (tx_raw_now_ms_statics s) ->
  w + 2 <= Clock.max_wraps ->
  result_of (tx_raw_now_ms cfg env) s
  <= result_of (tx_raw_now_ms cfg env) (state_after (tx_raw_now_ms cfg env) s).
Proof.
  intros Htps Hwf Hw.
  unfold result_of, state_after. rewrite (tx_raw_now_ms_run cfg env s). cbv zeta.
  cbn [fst snd].
  rewrite tx_raw_now_ms_run. cbv zeta. cbn [fst snd tx_raw_now_ms_statics set_statics
    set_trace trace].
  set (r1 := tx_time_get env (length (trace s))).
  set (r2 := tx_time_get env (length (Call_tx_time_get :: trace s))).
  pose proof (ClockFacts.tx_raw_now_ms_exact (TX_TIMER_TICKS_PER_SECOND cfg)
                r1 w (tx_raw_now_ms_statics s) Htps Hwf) as H1.
  cbv zeta in H1.
  destruct (Clock.tx_raw_now_ms (TX_TIMER_TICKS_PER_SECOND cfg) r1
              (tx_raw_now_ms_statics s)) as [ms1 c1].
  assert (Hb1 : w + (if wrap32 r1 <? Clock.last_ticks32 (tx_raw_now_ms_statics s)
                     then 1 else 0) <= Clock.max_wraps)
    by (destruct (wrap32 r1 <? _); lia).
  destruct (H1 Hb1) as (Hwf1 & Hl1 & _ & Hms1).
  cbn [fst snd].
  pose proof (ClockFacts.tx_raw_now_ms_exact (TX_TIMER_TICKS_PER_SECOND cfg)
                r2 _ c1 Htps Hwf1) as H2.
  cbv zeta in H2.
  destruct (Clock.tx_raw_now_ms (TX_TIMER_TICKS_PER_SECOND cfg) r2 c1) as [ms2 c2].
  assert (Hb2 : w + (if wrap32 r1 <? Clock.last_ticks32 (tx_raw_now_ms_statics s)
                     then 1 else 0)
                + (if wrap32 r2 <? Clock.last_ticks32 c1 then 1 else 0)
                <= Clock.max_wraps)
    by (destruct (wrap32 r1 <? _); destruct (wrap32 r2 <? _); lia).
  destruct (H2 Hb2) as (_ & _ & Hmono & Hms2).
  cbn [fst]. rewrite Hms1, Hms2.
  apply Z.div_le_mono; lia.
Qed.

(** On a master, a REQUEST of at least 16 bytes makes [on_timesync] read
    the clock twice (t2, then t3) and hand the router one RESPONSE that
    echoes the requester's sequence number and t1 and carries t2 and t3,
    time-stamped t3; it returns the router's answer and leaves the offset,
    the delay, the unix base, the sequence counter and the router state
    unchanged.  While the extender is below its overflow bound, t2 is at
    most t3. *)
Theorem master_request_is_answered :
  forall (cfg : Config) (env : Env) (p : SedsPacketView) (bytes : list Z)
         (s : State),
    TELEMETRY_TIME_MASTER cfg = true ->
    ty p = SEDS_DT_TIME_SYNC_REQUEST ->
    payload p = Some bytes ->
    16 <= payload_len p ->
    let t2 := result_of (tx_raw_now_ms cfg env) s in
    let t3 := result_of (tx_raw_now_ms cfg env)
                (state_after (tx_raw_now_ms cfg env) s) in
    let s' := state_after (on_timesync cfg env (Some p)) s in
    result_of (on_timesync cfg env (Some p)) s
      = seds_result env (S (S (length (trace s)))) /\
    trace s' =
      Call_seds_router_log_ts (r (g_router s)) SEDS_DT_TIME_SYNC_RESPONSE t3
        [load_u64 bytes 0; load_u64 bytes 8; t2; t3]
      :: Call_tx_time_get :: Call_tx_time_get :: trace s /\
    same_timesync_state s s' /\
    g_router s' = g_router s /\
    (forall w : Z,
       0 < TX_TIMER_TICKS_PER_SECOND cfg < 2 ^ 64 ->
       Clock.wf w (tx_raw_now_ms_statics s) ->
       w + 2 <= Clock.max_wraps ->
       t2 <= t3).
Proof.
  intros cfg env p bytes s Hm Hty Hpay Hlen. cbv zeta.
  pose proof (on_timesync_master_request_run cfg env p bytes s Hm Hty Hpay Hlen)
    as Hrun.
  cbv zeta in Hrun.
  split; [unfold result_of at 1; rewrite Hrun; reflexivity|].
  split; [unfold state_after at 1; rewrite Hrun; reflexivity|].
  split; [unfold state_after; rewrite Hrun; repeat split|].
  split; [unfold state_after; rewrite Hrun; reflexivity|].
  intros w Htps Hwf Hw. apply (tx_raw_now_ms_twice cfg env s w Htps Hwf Hw).
Qed.

(** The REQUEST (sequence 7, t1 = 500) received by a master whose clock
    reads 505 ms is answered with (7, 500, 505, 505). *)
Lemma master_request_is_answered_witness :
  let env := constant_env 505 HAL_OK (Some 1) 0 SEDS_OK in
  let p := packet_of SEDS_DT_TIME_SYNC_REQUEST [7; 500] in
  let s0 := state_after (init_telemetry_router master_config env) initial_state in
  trace (state_after (on_timesync master_config env (Some p)) s0)
  = Call_seds_router_log_ts (Some 1) SEDS_DT_TIME_SYNC_RESPONSE 505 [7; 500; 505; 505]
    :: Call_tx_time_get :: Call_tx_time_get :: trace s0 /\
  result_of (tx_raw_now_ms master_config env) s0
  <= result_of (tx_raw_now_ms master_config env)
       (state_after (tx_raw_now_ms master_config env) s0).
Proof.
  intros env p s0.
  destruct (master_request_is_answered master_config env p
              (flat_map store_u64 [7; 500]) s0)
    as (_ & Htrace & _ & _ & Hle);
    [reflexivity | reflexivity | reflexivity | vm_compute; discriminate|].
  split.
  - rewrite Htrace. vm_compute. reflexivity.
  - apply (Hle 0).
    + vm_compute. split; reflexivity.
    + vm_compute. repeat split; discriminate.
    + vm_compute. discriminate.
Defined.




(** ** The CAN send callback *)

(** [tx_send] answers [SEDS_BAD_ARG] to a null pointer or a zero length
    without calling the CAN driver; otherwise it calls
    [can_bus_send_large] once, with identifier 3, and returns [SEDS_OK]
    exactly when the driver answers [HAL_OK] and [SEDS_IO] otherwise.  It
    writes no static. *)
Theorem tx_send_outcomes :
  forall (env : Env) (bytes : buffer) (len : Z) (s : State),
    (bytes = None \/ len = 0 -> tx_send env bytes len s = (SEDS_BAD_ARG, s)) /\
    (forall b, bytes = Some b -> len <> 0 ->
       state_after (tx_send env bytes len) s
         = set_trace (Call_can_bus_send_large b len 3 :: trace s) s /\
       (can_bus_send_large env (length (trace s)) = HAL_OK ->
          result_of (tx_send env bytes len) s = SEDS_OK) /\
       (can_bus_send_large env (length (trace s)) <> HAL_OK ->
          result_of (tx_send env bytes len) s = SEDS_IO)).
Proof.
  intros env bytes len s. split.
  - intros [-> | ->]; unfold tx_send.
    + reflexivity.
    + destruct bytes; reflexivity.
  - intros b -> Hlen. unfold tx_send, result_of, state_after.
    apply Z.eqb_neq in Hlen. rewrite Hlen.
    unfold bind, call, ret. cbn [fst snd].
    split; [reflexivity|].
    destruct (can_bus_send_large env (length (trace s)));
      split; intros H; try reflexivity; try discriminate; contradiction.
Qed.

Lemma tx_send_outcomes_witness :
  tx_send (constant_env 0 HAL_BUSY None 0 SEDS_OK) (Some [1; 2]) 0 initial_state
  = (SEDS_BAD_ARG, initial_state) /\
  result_of (tx_send (constant_env 0 HAL_BUSY None 0 SEDS_OK) (Some [1; 2]) 2)
    initial_state = SEDS_IO.
Proof.
  destruct (tx_send_outcomes (constant_env 0 HAL_BUSY None 0 SEDS_OK)
              (Some [1; 2]) 0 initial_state) as (H0 & _).
  destruct (tx_send_outcomes (constant_env 0 HAL_BUSY None 0 SEDS_OK)
              (Some [1; 2]) 2 initial_state) as (_ & H2).
  split.
  - apply H0. right. reflexivity.
  - apply (H2 [1; 2]); [reflexivity | discriminate | discriminate].
Defined.

(** ** Lazy initialisation *)

Lemma with_router_present cfg env {A : Type} (fail : A) (rest : M A) s rt :
  r (g_router s) = Some rt ->
  with_router cfg env fail rest s = rest s.
Proof. intros Hr. unfold with_router, bind, gets. rewrite Hr. reflexivity. Qed.

Lemma with_router_absent cfg env {A : Type} (fail : A) (rest : M A) s :
  r (g_router s) = None ->
  with_router cfg env fail rest s =
    match result_of (init_telemetry_router cfg env) s with
    | SEDS_OK => rest (state_after (init_telemetry_router cfg env) s)
    | _ => (fail, state_after (init_telemetry_router cfg env) s)
    end.
Proof.
  intros Hr. unfold with_router, bind, gets, result_of, state_after.
  rewrite Hr.
  destruct (init_telemetry_router cfg env s) as [[| | | |code] s1]; reflexivity.
Qed.

(** The outcomes of [init_telemetry_router] on an enabled build. *)
Lemma init_telemetry_router_cases cfg env s :
  TELEMETRY_ENABLED cfg = true ->
  let res := result_of (init_telemetry_router cfg env) s in
  let s' := state_after (init_telemetry_router cfg env) s in
  (router_created s = true -> res = SEDS_OK /\ s' = s) /\
  (router_created s = false -> router_new_answer env s = None ->
     res = SEDS_ERR /\ r (g_router s') = None /\ created (g_router s') = 0) /\
  (router_created s = false ->
     forall rt, router_new_answer env s = Some rt ->
     res = SEDS_OK /\ r (g_router s') = Some rt /\ created (g_router s') = 1 /\
     (TELEMETRY_TIME_MASTER cfg = true -> g_master_offset_ms s' = 0)).
Proof.
  intros Hen. cbv zeta.
  unfold result_of, state_after, init_telemetry_router,
    router_new_answer, add_side_answer, calls_before_router_new, router_created.
  rewrite Hen. cbn [negb].
  cbv beta iota delta [bind gets modify ret call call_].
  destruct (negb (created (g_router s) =? 0)
            && match r (g_router s) with Some _ => true | None => false end)
    eqn:Hc.
  { repeat split; intros; try discriminate; reflexivity. }
  split; [discriminate|].
  destruct (g_can_rx_subscribed s =? 0);
    [destruct (can_bus_subscribe_rx env (length (trace s)))|];
    cbn [fst snd trace set_trace set_can_rx_subscribed length];
    rewrite ?Nat.add_1_r, <- ?plus_n_Sm, <- ?plus_n_O;
    (split; intros _;
     [ intros Hn; rewrite Hn; cbn; repeat split
     | intros rt Hn; rewrite Hn; cbv beta iota;
       cbn [fst snd trace set_trace set_can_side_id length];
       match goal with
       | |- context [?a <? 0] => destruct (a <? 0)
       end;
       rewrite telemetry_now_ms_run; cbv zeta;
       destruct (TELEMETRY_TIME_MASTER cfg); cbn; repeat split;
       intros; try discriminate; reflexivity ]).
Qed.

(** Once [init_telemetry_router] has returned [SEDS_OK], calling it again
    returns [SEDS_OK] and changes nothing, whatever the collaborators would
    answer; on an enabled build the router pointer is then set, so no entry
    point initialises again. *)
Theorem init_telemetry_router_idempotent :
  forall (cfg : Config) (env env' : Env) (s : State),
    result_of (init_telemetry_router cfg env) s = SEDS_OK ->
    let s' := state_after (init_telemetry_router cfg env) s in
    init_telemetry_router cfg env' s' = (SEDS_OK, s') /\
    (TELEMETRY_ENABLED cfg = true -> router_created s' = true).
Proof.
  intros cfg env env' s Hok. cbv zeta.
  destruct (TELEMETRY_ENABLED cfg) eqn:Hen.
  - assert (Hc : router_created (state_after (init_telemetry_router cfg env) s) = true).
    { destruct (init_telemetry_router_cases cfg env s Hen) as (H1 & H2 & H3).
      destruct (router_created s) eqn:Hs.
      - destruct (H1 eq_refl) as (_ & ->). exact Hs.
      - destruct (router_new_answer env s) as [rt|] eqn:Hn.
        + destruct (H3 eq_refl rt eq_refl) as (_ & Hr & Hcr & _).
          unfold router_created. rewrite Hr, Hcr. reflexivity.
        + destruct (H2 eq_refl eq_refl) as (He & _). congruence. }
    split; [|intros _; exact Hc].
    destruct (init_telemetry_router_cases cfg env'
                (state_after (init_telemetry_router cfg env) s) Hen)
      as (H1 & _).
    destruct (H1 Hc) as (Hres & Hst).
    unfold result_of, state_after in Hres, Hst.
    destruct (init_telemetry_router cfg env' _) as [res s2].
    cbn [fst snd] in Hres, Hst. subst. reflexivity.
  - split; [|discriminate].
    unfold state_after, init_telemetry_router. rewrite Hen. reflexivity.
Qed.

(** A first call that creates the router, then a second one under
    collaborators that would all fail. *)
Lemma init_telemetry_router_idempotent_witness :
  let env := constant_env 0 HAL_OK (Some 1) 0 SEDS_OK in
  let env' := constant_env 9 HAL_ERROR None (-1) SEDS_ERR in
  let s' := state_after (init_telemetry_router client_config env) initial_state in
  init_telemetry_router client_config env' s' = (SEDS_OK, s').
Proof.
  intros env env' s'.
  apply (init_telemetry_router_idempotent client_config env env' initial_state).
  vm_compute. reflexivity.
Defined.

(** ** What the operations leave alone *)

#[local] Instance same_delay_base_seq_preorder : PreOrder same_delay_base_seq.
Proof.
  split.
  - intros s. repeat split.
  - intros a b c (H1 & H2 & H3 & H4) (K1 & K2 & K3 & K4).
    repeat split; congruence.
Qed.

#[local] Instance same_timesync_state_preorder : PreOrder same_timesync_state.
Proof.
  split.
  - intros s. repeat split.
  - intros a b c (H1 & H2 & H3 & H4 & H5) (K1 & K2 & K3 & K4 & K5).
    repeat split; congruence.
Qed.

#[local] Instance keeps_router_consistent_preorder : PreOrder keeps_router_consistent.
Proof.
  split.
  - intros s H. exact H.
  - intros a b c Hab Hbc H. apply Hbc, Hab, H.
Qed.

#[local] Instance keeps_zero_offset_preorder : PreOrder keeps_zero_offset.
Proof.
  split.
  - intros s H. exact H.
  - intros a b c Hab Hbc H. apply Hbc, Hab, H.
Qed.

Ltac fields_leaf := repeat split.

Ltac consistent_leaf :=
  unfold keeps_router_consistent, router_consistent; cbn;
  intros; solve [assumption | reflexivity].

Ltac zero_offset_leaf :=
  unfold keeps_zero_offset; cbn; intros; solve [assumption | reflexivity].

Lemma init_keeps_delay_base_seq cfg env :
  respects same_delay_base_seq (init_telemetry_router cfg env).
Proof. respects_all fields_leaf. Qed.

Lemma init_keeps_timesync_state_on_client cfg env :
  TELEMETRY_TIME_MASTER cfg = false ->
  respects same_timesync_state (init_telemetry_router cfg env).
Proof.
  intros Hm. unfold init_telemetry_router. rewrite Hm.
  respects_all fields_leaf.
Qed.

(** [init_telemetry_router] never writes the last delay, the unix base,
    its validity or the sequence counter.  On a client it does not write
    [g_master_offset_ms] either; on a master, creating the router resets
    [g_master_offset_ms] to 0. *)
Theorem init_telemetry_router_frame :
  forall (cfg : Config) (env : Env) (s : State),
    let s' := state_after (init_telemetry_router cfg env) s in
    same_delay_base_seq s s' /\
    (TELEMETRY_TIME_MASTER cfg = false ->
       g_master_offset_ms s' = g_master_offset_ms s) /\
    (TELEMETRY_ENABLED cfg = true -> TELEMETRY_TIME_MASTER cfg = true ->
     router_created s = false ->
     result_of (init_telemetry_router cfg env) s = SEDS_OK ->
       g_master_offset_ms s' = 0).
Proof.
  intros cfg env s. cbv zeta. split; [apply init_keeps_delay_base_seq|]. split.
  - intros Hm.
    destruct (init_keeps_timesync_state_on_client cfg env Hm s) as (H & _).
    exact H.
  - intros Hen Hm Hc Hok.
    destruct (init_telemetry_router_cases cfg env s Hen) as (_ & H2 & H3).
    destruct (router_new_answer env s) as [rt|] eqn:Hn.
    + destruct (H3 Hc rt eq_refl) as (_ & _ & _ & H0). exact (H0 Hm).
    + destruct (H2 Hc eq_refl) as (He & _). congruence.
Qed.

(** A client that has already corrected its clock by -40 ms keeps that
    correction across initialisation; a master would lose it. *)
Lemma init_telemetry_router_frame_witness :
  let env := constant_env 0 HAL_OK (Some 1) 0 SEDS_OK in
  let s := set_master_offset_ms (-40) initial_state in
  g_master_offset_ms (state_after (init_telemetry_router client_config env) s) = -40 /\
  g_master_offset_ms (state_after (init_telemetry_router master_config env) s) = 0.
Proof.
  intros env s. split.
  - apply (init_telemetry_router_frame client_config env s). reflexivity.
  - apply (init_telemetry_router_frame master_config env s); reflexivity.
Defined.

Lemma exec_keeps_router_consistent cfg env (o : Op) :
  respects keeps_router_consistent (exec cfg env o).
Proof. destruct o; respects_all consistent_leaf. Qed.

(** The router pointer and the created flag always agree: they do in the
    initial state and after every sequence of operations, so the test
    [!g_router.r] of the entry points and the test
    [g_router.created && g_router.r] of [init_telemetry_router] never
    disagree. *)
Theorem router_state_stays_consistent :
  forall (cfg : Config) (env : Env) (ops : list Op),
    let s := run cfg env ops initial_state in
    router_consistent s /\
    (router_created s = true <-> r (g_router s) <> None).
Proof.
  intros cfg env ops. cbv zeta.
  assert (H : forall s, router_consistent s -> router_consistent (run cfg env ops s)).
  { induction ops as [|o ops IH]; intros s Hs.
    - exact Hs.
    - cbn [run]. apply IH. apply (exec_keeps_router_consistent cfg env o s Hs). }
  specialize (H initial_state eq_refl).
  split; [exact H|].
  unfold router_consistent, router_created in *.
  destruct (r (g_router (run cfg env ops initial_state))).
  - rewrite H. cbn. split; [discriminate | reflexivity].
  - split; [rewrite andb_false_r; discriminate | intros K; contradiction].
Qed.

Lemma exec_keeps_zero_offset_on_master cfg env (o : Op) :
  TELEMETRY_TIME_MASTER cfg = true ->
  callable_on_master o = true ->
  respects keeps_zero_offset (exec cfg env o).
Proof.
  intros Hm Ho.
  destruct o; try discriminate Ho;
    autounfold with telemetry; rewrite ?Hm; cbn [negb];
    respects_all zero_offset_leaf.
Qed.

(** On a master [g_master_offset_ms] stays 0: no sequence of operations
    that a master can run (everything but the client-only
    [client_apply_offset_ms]) moves it, whatever messages arrive. *)
Theorem master_offset_stays_zero :
  forall (cfg : Config) (env : Env) (ops : list Op) (s : State),
    TELEMETRY_TIME_MASTER cfg = true ->
    forallb callable_on_master ops = true ->
    g_master_offset_ms s = 0 ->
    g_master_offset_ms (run cfg env ops s) = 0.
Proof.
  intros cfg env ops s Hm. revert s.
  induction ops as [|o ops IH]; intros s Hops Hs.
  - exact Hs.
  - cbn [forallb] in Hops. apply andb_prop in Hops as (Ho & Hops).
    cbn [run]. apply IH; [exact Hops|].
    apply (exec_keeps_zero_offset_on_master cfg env o Hm Ho s Hs).
Qed.

(** A master that receives a RESPONSE carrying an offset of 2000 ms, an
    ANNOUNCE and a REQUEST keeps its offset at 0. *)
Lemma master_offset_stays_zero_witness :
  let env := constant_env 1025 HAL_OK (Some 1) 0 SEDS_OK in
  g_master_offset_ms
    (run master_config env
       [Op_init_telemetry_router;
        Op_on_timesync (Some (packet_of SEDS_DT_TIME_SYNC_RESPONSE [1; 1000; 3010; 3012]));
        Op_on_timesync (Some (packet_of SEDS_DT_TIME_SYNC_ANNOUNCE [0; 5]));
        Op_on_timesync (Some (packet_of SEDS_DT_TIME_SYNC_REQUEST [7; 500]));
        Op_telemetry_timesync_request;
        Op_process_all_queues_timeout 5]
       initial_state) = 0.
Proof.
  intros env.
  apply (master_offset_stays_zero master_config env); reflexivity.
Defined.

(** ** A build without [TELEMETRY_ENABLED] *)

(** Without [TELEMETRY_ENABLED] every entry point of the facade returns
    [SEDS_OK] (the receive paths return nothing), writes no static and
    calls no collaborator, whatever its arguments. *)
Theorem disabled_build_does_nothing :
  forall (cfg : Config) (env : Env) (s : State),
    TELEMETRY_ENABLED cfg = false ->
    init_telemetry_router cfg env s = (SEDS_OK, s) /\
    telemetry_timesync_request cfg env s = (SEDS_OK, s) /\
    (forall priority unix_ms,
       telemetry_timesync_announce cfg env priority unix_ms s = (SEDS_OK, s)) /\
    (forall dt data count size,
       log_telemetry_synchronous cfg env dt data count size s = (SEDS_OK, s) /\
       log_telemetry_asynchronous cfg env dt data count size s = (SEDS_OK, s)) /\
    dispatch_tx_queue cfg env s = (SEDS_OK, s) /\
    process_rx_queue cfg env s = (SEDS_OK, s) /\
    (forall timeout_ms,
       dispatch_tx_queue_timeout cfg env timeout_ms s = (SEDS_OK, s) /\
       process_rx_queue_timeout cfg env timeout_ms s = (SEDS_OK, s) /\
       process_all_queues_timeout cfg env timeout_ms s = (SEDS_OK, s)) /\
    (forall f,
       log_error_asyncronous cfg env f s = (SEDS_OK, s) /\
       log_error_syncronous cfg env f s = (SEDS_OK, s)) /\
    (forall code f, print_telemetry_error cfg env code f s = (SEDS_OK, s)) /\
    (forall bytes len,
       rx_asynchronous cfg env bytes len s = (tt, s) /\
       rx_synchronous cfg env bytes len s = (tt, s) /\
       telemetry_can_rx cfg env bytes len s = (tt, s)).
Proof.
  intros cfg env s Hen.
  repeat split; intros;
    autounfold with telemetry; rewrite Hen; reflexivity.
Qed.

Lemma disabled_build_does_nothing_witness :
  let cfg := {| TELEMETRY_ENABLED := false; TELEMETRY_TIME_MASTER := false;
                TX_TIMER_TICKS_PER_SECOND := 1000;
                NET_TIMESYNC_MAX_STEP_MS := 30000;
                NET_TIMESYNC_SMOOTH_DIV := 4 |} in
  let env := constant_env 0 HAL_OK (Some 1) 0 SEDS_ERR in
  log_telemetry_synchronous cfg env SEDS_DT_MESSAGE_DATA None 0 0 initial_state
  = (SEDS_OK, initial_state) /\
  process_all_queues_timeout cfg env 5 initial_state = (SEDS_OK, initial_state).
Proof.
  intros cfg env.
  destruct (disabled_build_does_nothing cfg env initial_state eq_refl)
    as (_ & _ & _ & Hlog & _ & _ & Hq & _).
  split.
  - apply Hlog.
  - apply Hq.
Defined.

(** ** The entry points once the router exists *)

(** With telemetry enabled, each of the five queue entry points makes
    exactly one router call when the router exists, the one it is named
    after with the caller's timeout, and returns the router's answer; when
    there is no router and the lazy creation fails it returns [SEDS_ERR]
    and only the calls of the failed creation are made. *)
Theorem queue_entry_points_forward :
  forall (cfg : Config) (env : Env) (timeout_ms : Z) (s : State)
         (f : M SedsResult) (c : option SedsRouter -> Call),
    TELEMETRY_ENABLED cfg = true ->
    In (f, c) (queue_entry_points cfg env timeout_ms) ->
    (forall rt, r (g_router s) = Some rt ->
       f s = (seds_result env (length (trace s)),
              set_trace (c (Some rt) :: trace s) s)) /\
    (r (g_router s) = None ->
     result_of (init_telemetry_router cfg env) s = SEDS_OK ->
       let s1 := state_after (init_telemetry_router cfg env) s in
       f s = (seds_result env (length (trace s1)),
              set_trace (c (r (g_router s1)) :: trace s1) s1)) /\
    (router_available cfg env s = false ->
       f s = (SEDS_ERR, state_after (init_telemetry_router cfg env) s)).
Proof.
  intros cfg env t s f c Hen Hin.
  assert (E : f = queue_call cfg env c).
  { cbn [queue_entry_points In] in Hin.
    destruct Hin as [H|[H|[H|[H|[H|[]]]]]]; inversion H; reflexivity. }
  subst f. unfold queue_call. rewrite Hen. cbn [negb]. split; [|split].
  - intros rt Hr. rewrite (with_router_present cfg env _ _ s rt Hr).
    unfold bind, gets, call. rewrite Hr. reflexivity.
  - intros Hr Hok. cbv zeta.
    rewrite (with_router_absent cfg env _ _ s Hr), Hok. reflexivity.
  - intros Hav. unfold router_available in Hav.
    destruct (r (g_router s)) eqn:Hr; [discriminate|].
    rewrite (with_router_absent cfg env _ _ s Hr).
    destruct (result_of (init_telemetry_router cfg env) s);
      try discriminate; reflexivity.
Qed.

Lemma queue_entry_points_forward_witness :
  let env := constant_env 0 HAL_OK (Some 1) 0 (SEDS_OTHER (-7)) in
  let s := state_after (init_telemetry_router client_config env) initial_state in
  process_all_queues_timeout client_config env 5 s
  = (SEDS_OTHER (-7),
     set_trace
       (Call_seds_router_process_all_queues_with_timeout (Some 1) 5 :: trace s) s).
Proof.
  intros env s.
  destruct (queue_entry_points_forward client_config env 5 s
              (process_all_queues_timeout client_config env 5)
              (fun rt => Call_seds_router_process_all_queues_with_timeout rt 5))
    as (H & _).
  - reflexivity.
  - cbn. auto 6.
  - apply (H 1). reflexivity.
Defined.

Lemma log_telemetry_present cfg env queue dt d count size s rt :
  TELEMETRY_ENABLED cfg = true ->
  r (g_router s) = Some rt ->
  count <> 0 -> size <> 0 ->
  log_telemetry cfg env queue dt (Some d) count size s =
    (seds_result env (length (trace s)),
     set_trace
       (Call_seds_router_log_typed_ex (Some rt) dt d count size
          (guess_kind_from_elem_size size) queue :: trace s) s).
Proof.
  intros Hen Hr Hc Hz. unfold log_telemetry. rewrite Hen.
  rewrite (with_router_present cfg env _ _ s rt Hr).
  apply Z.eqb_neq in Hc. apply Z.eqb_neq in Hz. rewrite Hc, Hz. cbn [orb].
  unfold bind, gets, call. rewrite Hr. reflexivity.
Qed.

(** With telemetry enabled and the router present, a call of
    [log_telemetry_synchronous] or [log_telemetry_asynchronous] with
    non-null data and non-zero count and size makes exactly one
    [seds_router_log_typed_ex] call, with the caller's data, count and
    size, the element kind float for sizes 4 and 8 and unsigned for every
    other size, and the queue flag 0 (synchronous) or 1 (asynchronous); it
    returns the router's answer and writes no static. *)
Theorem log_telemetry_forwards :
  forall (cfg : Config) (env : Env) (dt : SedsDataType) (d : list Z)
         (count size : Z) (s : State) (rt : SedsRouter),
    TELEMETRY_ENABLED cfg = true ->
    r (g_router s) = Some rt ->
    count <> 0 -> size <> 0 ->
    let kind := if (size =? 4) || (size =? 8) then SEDS_EK_FLOAT
                else SEDS_EK_UNSIGNED in
    log_telemetry_synchronous cfg env dt (Some d) count size s =
      (seds_result env (length (trace s)),
       set_trace
         (Call_seds_router_log_typed_ex (Some rt) dt d count size kind 0
          :: trace s) s) /\
    log_telemetry_asynchronous cfg env dt (Some d) count size s =
      (seds_result env (length (trace s)),
       set_trace
         (Call_seds_router_log_typed_ex (Some rt) dt d count size kind 1
          :: trace s) s).
Proof.
  intros cfg env dt d count size s rt Hen Hr Hc Hz. cbv zeta.
  split; apply (log_telemetry_present cfg env _ dt d count size s rt Hen Hr Hc Hz).
Qed.

(** The start-up message of [telemetry_thread_entry]: 26 characters of
    size 1 are logged synchronously as unsigned. *)
Lemma log_telemetry_forwards_witness :
  let env := constant_env 0 HAL_OK (Some 1) 0 SEDS_OK in
  let s := state_after (init_telemetry_router client_config env) initial_state in
  let text := repeat 65 26 in
  log_telemetry_synchronous client_config env SEDS_DT_MESSAGE_DATA (Some text) 26 1 s
  = (SEDS_OK,
     set_trace
       (Call_seds_router_log_typed_ex (Some 1) SEDS_DT_MESSAGE_DATA text 26 1
          SEDS_EK_UNSIGNED 0 :: trace s) s).
Proof.
  intros env s text.
  apply (log_telemetry_forwards client_config env SEDS_DT_MESSAGE_DATA text 26 1 s 1).
  - reflexivity.
  - reflexivity.
  - discriminate.
  - discriminate.
Defined.

(** With telemetry enabled and the router present, the two error loggers
    always hand the router exactly one [SEDS_DT_GENERIC_ERROR] string: the
    formatted text with its length, or the empty string with length 0 when
    either [vsnprintf] reports a failure; the queue flag is 1 for
    [log_error_asyncronous] and 0 for [log_error_syncronous], and the
    router's answer is returned. *)
Theorem log_error_always_forwards :
  forall (cfg : Config) (env : Env) (f : Formatted) (s : State) (rt : SedsRouter),
    TELEMETRY_ENABLED cfg = true ->
    r (g_router s) = Some rt ->
    let text := if (fmt_len f <? 0) || (fmt_written f <? 0) then [] else fmt_buf f in
    let len := if (fmt_len f <? 0) || (fmt_written f <? 0) then 0 else fmt_written f in
    log_error_asyncronous cfg env f s =
      (seds_result env (length (trace s)),
       set_trace
         (Call_seds_router_log_string_ex (Some rt) SEDS_DT_GENERIC_ERROR text len 1
          :: trace s) s) /\
    log_error_syncronous cfg env f s =
      (seds_result env (length (trace s)),
       set_trace
         (Call_seds_router_log_string_ex (Some rt) SEDS_DT_GENERIC_ERROR text len 0
          :: trace s) s).
Proof.
  intros cfg env f s rt Hen Hr. cbv zeta.
  unfold log_error_asyncronous, log_error_syncronous, log_error.
  rewrite Hen. cbn [negb].
  rewrite !(with_router_present cfg env _ _ s rt Hr).
  unfold bind, gets, call. rewrite Hr.
  destruct (fmt_len f <? 0); [split; reflexivity|].
  destruct (fmt_written f <? 0); split; reflexivity.
Qed.

Lemma log_error_always_forwards_witness :
  let env := constant_env 0 HAL_OK (Some 1) 0 SEDS_OK in
  let s := state_after (init_telemetry_router client_config env) initial_state in
  log_error_syncronous client_config env
    {| fmt_len := -1; fmt_written := 0; fmt_buf := [] |} s
  = (SEDS_OK,
     set_trace
       (Call_seds_router_log_string_ex (Some 1) SEDS_DT_GENERIC_ERROR [] 0 0
        :: trace s) s).
Proof.
  intros env s.
  apply (log_error_always_forwards client_config env
           {| fmt_len := -1; fmt_written := 0; fmt_buf := [] |} s 1); reflexivity.
Defined.

(** ** The receive paths *)

Lemma rx_present cfg env s rt b len
      (from_side : option SedsRouter -> Z -> list Z -> Z -> Call)
      (plain : option SedsRouter -> list Z -> Z -> Call) :
  r (g_router s) = Some rt ->
  with_router cfg env tt
    (bind (gets g_router) (fun g =>
     bind (gets g_can_side_id) (fun side =>
       if 0 <=? side
       then call_ (from_side (r g) (wrap32 side) b len)
       else call_ (plain (r g) b len)))) s
  = (tt, set_trace
           ((if 0 <=? g_can_side_id s
             then from_side (Some rt) (wrap32 (g_can_side_id s)) b len
             else plain (Some rt) b len) :: trace s) s).
Proof.
  intros Hr. rewrite (with_router_present cfg env _ _ s rt Hr).
  unfold bind, gets, call_. rewrite Hr. cbn [fst snd].
  destruct (0 <=? g_can_side_id s); reflexivity.
Qed.

(** [rx_asynchronous] and [rx_synchronous] do nothing at all for a null
    pointer or a zero length, not even create the router.  With telemetry
    enabled and the router present they hand the bytes to the router in
    exactly one call: the per-side ingest with the CAN side id when the
    side was attached ([g_can_side_id >= 0]), the side-less ingest when it
    was not. *)
Theorem rx_paths :
  forall (cfg : Config) (env : Env) (bytes : buffer) (len : Z) (s : State),
    (bytes = None \/ len = 0 ->
       rx_asynchronous cfg env bytes len s = (tt, s) /\
       rx_synchronous cfg env bytes len s = (tt, s)) /\
    (forall b rt,
       TELEMETRY_ENABLED cfg = true ->
       bytes = Some b -> len <> 0 -> r (g_router s) = Some rt ->
       rx_asynchronous cfg env bytes len s =
         (tt, set_trace
                ((if 0 <=? g_can_side_id s
                  then Call_seds_router_rx_serialized_packet_to_queue_from_side
                         (Some rt) (wrap32 (g_can_side_id s)) b len
                  else Call_seds_router_rx_serialized_packet_to_queue
                         (Some rt) b len) :: trace s) s) /\
       rx_synchronous cfg env bytes len s =
         (tt, set_trace
                ((if 0 <=? g_can_side_id s
                  then Call_seds_router_receive_serialized_from_side
                         (Some rt) (wrap32 (g_can_side_id s)) b len
                  else Call_seds_router_receive_serialized
                         (Some rt) b len) :: trace s) s) /\
       telemetry_can_rx cfg env bytes len s = rx_asynchronous cfg env bytes len s).
Proof.
  intros cfg env bytes len s. split.
  - intros Hbad. unfold rx_asynchronous, rx_synchronous.
    destruct (negb (TELEMETRY_ENABLED cfg)); [split; reflexivity|].
    destruct bytes as [b|]; [|split; reflexivity].
    destruct Hbad as [H| ->]; [discriminate|]. split; reflexivity.
  - intros b rt Hen -> Hlen Hr.
    apply Z.eqb_neq in Hlen.
    unfold telemetry_can_rx, rx_asynchronous, rx_synchronous.
    rewrite Hen, Hlen. cbn [negb].
    split; [|split]; [ | | reflexivity].
    + apply (rx_present cfg env s rt b len
               Call_seds_router_rx_serialized_packet_to_queue_from_side
               Call_seds_router_rx_serialized_packet_to_queue Hr).
    + apply (rx_present cfg env s rt b len
               Call_seds_router_receive_serialized_from_side
               Call_seds_router_receive_serialized Hr).
Qed.

(** A node whose CAN side could not be attached (side id -1) still takes
    received frames in, through the side-less ingest. *)
Lemma rx_paths_witness :
  let env := constant_env 0 HAL_OK (Some 1) (-1) SEDS_OK in
  let s := state_after (init_telemetry_router client_config env) initial_state in
  rx_asynchronous client_config env (Some [1; 2; 3]) 3 s
  = (tt, set_trace
           (Call_seds_router_rx_serialized_packet_to_queue (Some 1) [1; 2; 3] 3
            :: trace s) s) /\
  rx_asynchronous client_config env (Some [1; 2; 3]) 0 initial_state
  = (tt, initial_state).
Proof.
  intros env s.
  destruct (rx_paths client_config env (Some [1; 2; 3]) 3 s) as (_ & H).
  destruct (rx_paths client_config env (Some [1; 2; 3]) 0 initial_state) as (H0 & _).
  split.
  - destruct (H [1; 2; 3] 1) as (Ha & _);
      [reflexivity | reflexivity | discriminate | reflexivity | exact Ha].
  - apply H0. right. reflexivity.
Defined.

(** ** The two triggers *)

(** The triggers follow the role: [telemetry_timesync_request] on a master
    and [telemetry_timesync_announce] on a client return [SEDS_OK] without
    doing anything.  On a master with telemetry enabled and the router
    present, [telemetry_timesync_announce] reads the clock once and hands
    the router one ANNOUNCE carrying the caller's priority and unix time,
    time-stamped with the raw clock; it returns the router's answer and
    leaves the time-sync statics unchanged. *)
Theorem timesync_triggers_by_role :
  forall (cfg : Config) (env : Env) (s : State),
    (TELEMETRY_TIME_MASTER cfg = true ->
       telemetry_timesync_request cfg env s = (SEDS_OK, s)) /\
    (TELEMETRY_TIME_MASTER cfg = false ->
       forall priority unix_ms,
         telemetry_timesync_announce cfg env priority unix_ms s = (SEDS_OK, s)) /\
    (TELEMETRY_TIME_MASTER cfg = true -> TELEMETRY_ENABLED cfg = true ->
       forall rt priority unix_ms,
         r (g_router s) = Some rt ->
         let t := result_of (tx_raw_now_ms cfg env) s in
         let s' := state_after
                     (telemetry_timesync_announce cfg env priority unix_ms) s in
         result_of (telemetry_timesync_announce cfg env priority unix_ms) s
           = seds_result env (S (length (trace s))) /\
         trace s' =
           Call_seds_router_log_ts (Some rt) SEDS_DT_TIME_SYNC_ANNOUNCE t
             [priority; unix_ms]
           :: Call_tx_time_get :: trace s /\
         same_timesync_state s s').
Proof.
  intros cfg env s. split; [|split].
  - intros Hm. unfold telemetry_timesync_request. rewrite Hm.
    destruct (negb (TELEMETRY_ENABLED cfg)); reflexivity.
  - intros Hm priority unix_ms. unfold telemetry_timesync_announce. rewrite Hm.
    destruct (negb (TELEMETRY_ENABLED cfg)); reflexivity.
  - intros Hm Hen rt priority unix_ms Hr. cbv zeta.
    assert (E : telemetry_timesync_announce cfg env priority unix_ms s =
      (seds_result env (S (length (trace s))),
       set_trace
         (Call_seds_router_log_ts (Some rt) SEDS_DT_TIME_SYNC_ANNOUNCE
            (result_of (tx_raw_now_ms cfg env) s) [priority; unix_ms]
          :: Call_tx_time_get :: trace s)
         (state_after (tx_raw_now_ms cfg env) s))).
    { unfold telemetry_timesync_announce. rewrite Hen, Hm. cbn [negb].
      rewrite (with_router_present cfg env _ _ s rt Hr).
      unfold bind, gets, call.
      rewrite (tx_raw_now_ms_run cfg env s). cbv zeta. cbn [fst snd].
      cbn [g_router set_statics set_trace trace length]. rewrite Hr.
      reflexivity. }
    unfold result_of at 1. unfold state_after at 1 2.
    rewrite E. cbn [fst snd]. repeat split.
Qed.

Lemma timesync_triggers_by_role_witness :
  let env := constant_env 5000 HAL_OK (Some 1) 0 SEDS_OK in
  let s := state_after (init_telemetry_router master_config env) initial_state in
  telemetry_timesync_request master_config env s = (SEDS_OK, s) /\
  telemetry_timesync_announce client_config env 0 1700000000000 initial_state
  = (SEDS_OK, initial_state) /\
  trace (state_after (telemetry_timesync_announce master_config env 0 1700000000000) s)
  = Call_seds_router_log_ts (Some 1) SEDS_DT_TIME_SYNC_ANNOUNCE 5000
      [0; 1700000000000] :: Call_tx_time_get :: trace s.
Proof.
  intros env s.
  destruct (timesync_triggers_by_role master_config env s) as (Hreq & _ & Hann).
  destruct (timesync_triggers_by_role client_config env initial_state)
    as (_ & Hcli & _).
  split; [|split].
  - apply Hreq. reflexivity.
  - apply Hcli. reflexivity.
  - destruct (Hann eq_refl eq_refl 1 0 1700000000000 eq_refl) as (_ & Htr & _).
    rewrite Htr. vm_compute. reflexivity.
Defined.

(** ** Sequence numbers of successive requests *)

Lemma telemetry_timesync_request_run cfg env s rt :
  TELEMETRY_ENABLED cfg = true ->
  TELEMETRY_TIME_MASTER cfg = false ->
  r (g_router s) = Some rt ->
  telemetry_timesync_request cfg env s =
    (seds_result env (S (length (trace s))),
     set_trace
       (Call_seds_router_log_ts (Some rt) SEDS_DT_TIME_SYNC_REQUEST
          (result_of (tx_raw_now_ms cfg env) s)
          [g_timesync_seq s; result_of (tx_raw_now_ms cfg env) s]
        :: Call_tx_time_get :: trace s)
       (set_timesync_seq (wrap64 (g_timesync_seq s + 1))
          (state_after (tx_raw_now_ms cfg env) s))).
Proof.
  intros Hen Hm Hr. unfold telemetry_timesync_request. rewrite Hen, Hm. cbn [negb].
  rewrite (with_router_present cfg env _ _ s rt Hr).
  unfold bind, gets, modify, call.
  rewrite (tx_raw_now_ms_run cfg env s). cbv zeta. cbn [fst snd].
  cbn [g_router g_timesync_seq set_statics set_trace set_timesync_seq trace length].
  rewrite Hr. reflexivity.
Qed.

Lemma wrap64_succ_add f n :
  wrap64 (wrap64 (f + 1) + n) = wrap64 (f + (n + 1)).
Proof.
  unfold wrap64. rewrite Zplus_mod_idemp_l. f_equal. lia.
Qed.

Lemma countdown_shift f n :
  is_u64 f ->
  countdown f (S n) = countdown (wrap64 (f + 1)) n ++ [f].
Proof.
  intros Hf. induction n as [|n IH].
  - cbn [countdown app]. rewrite Z.add_0_r, wrap64_small by exact Hf. reflexivity.
  - change (countdown f (S (S n)))
      with (wrap64 (f + Z.of_nat (S n)) :: countdown f (S n)).
    rewrite IH. cbn [countdown app].
    rewrite wrap64_succ_add, Nat2Z.inj_succ. unfold Z.succ. reflexivity.
Qed.

(** On a client with telemetry enabled and the router present, [n]
    successive calls of [telemetry_timesync_request] hand the router [n]
    REQUESTs numbered [seq], [seq + 1], ..., [seq + n - 1] (modulo [2^64]),
    where [seq] is the counter before the first call, whatever the router
    answers to each; afterwards the counter is [seq + n] and the router is
    still present. *)
Theorem requests_carry_consecutive_sequences :
  forall (cfg : Config) (env : Env) (n : nat) (s : State) (rt : SedsRouter),
    TELEMETRY_ENABLED cfg = true ->
    TELEMETRY_TIME_MASTER cfg = false ->
    r (g_router s) = Some rt ->
    is_u64 (g_timesync_seq s) ->
    let s' := request_repeatedly cfg env n s in
    g_timesync_seq s' = wrap64 (g_timesync_seq s + Z.of_nat n) /\
    request_sequences (trace s')
      = countdown (g_timesync_seq s) n ++ request_sequences (trace s) /\
    r (g_router s') = Some rt.
Proof.
  intros cfg env n s rt Hen Hm. revert s. cbv zeta.
  induction n as [|n IH]; intros s Hr Hu.
  - cbn [request_repeatedly countdown app].
    rewrite Z.add_0_r, wrap64_small by exact Hu. auto.
  - cbn [request_repeatedly]. unfold state_after at 1 2 3.
    rewrite (telemetry_timesync_request_run cfg env s rt Hen Hm Hr). cbn [snd].
    match goal with
    | |- context [request_repeatedly cfg env n ?x] => set (s1 := x)
    end.
    assert (Hr1 : r (g_router s1) = Some rt) by exact Hr.
    assert (Hq1 : g_timesync_seq s1 = wrap64 (g_timesync_seq s + 1)) by reflexivity.
    assert (Ht1 : request_sequences (trace s1)
                  = g_timesync_seq s :: request_sequences (trace s)) by reflexivity.
    assert (Hu1 : is_u64 (g_timesync_seq s1))
      by (rewrite Hq1; apply wrap64_range).
    destruct (IH s1 Hr1 Hu1) as (Hseq & Htr & Hrt).
    split; [|split].
    + rewrite Hseq, Hq1, wrap64_succ_add. f_equal. lia.
    + rewrite Htr, Ht1, Hq1, (countdown_shift _ n Hu), <- app_assoc. reflexivity.
    + exact Hrt.
Qed.

(** Three requests on a client whose router refuses every enqueue carry
    the numbers 1, 2 and 3. *)
Lemma requests_carry_consecutive_sequences_witness :
  let env := constant_env 40 HAL_OK (Some 1) 0 SEDS_ERR in
  let s := state_after (init_telemetry_router client_config env) initial_state in
  request_sequences (trace (request_repeatedly client_config env 3 s)) = [3; 2; 1] /\
  g_timesync_seq (request_repeatedly client_config env 3 s) = 4.
Proof.
  intros env s.
  destruct (requests_carry_consecutive_sequences client_config env 3 s 1)
    as (Hseq & Htr & _);
    [reflexivity | reflexivity | reflexivity | vm_compute; split; [discriminate | reflexivity] |].
  split.
  - rewrite Htr. vm_compute. reflexivity.
  - rewrite Hseq. vm_compute. reflexivity.
Defined.
